(** * deepseek_ocr_runner.py: the OCR invoker, embedded and verified

    The script loads a tokenizer and a model, runs one inference call and
    prints a JSON object.  Everything of substance is done by external
    libraries (transformers, torch, json, argparse), so the embedding models
    the script's own control flow over a [World] that gives the behaviour of
    each external call, and a [State] that holds what the script can change:
    the two output streams, torch's gradient mode and the log of external
    calls made. *)

From Stdlib Require Import String Ascii ZArith List Bool Lia.
From Stdlib Require Import Decimal DecimalString.
Import ListNotations.

Set Warnings "-register-all".

Local Open Scope string_scope.
Local Open Scope Z_scope.

(** ** Python values and exceptions *)

Module Py.

(** A Python [str] is held as the bytes of its UTF-8 encoding, which is
    also how a string literal of this file is read. *)

(** A raised Python exception, as the handler of [run_ocr] sees it:
    [type(e).__name__]; what [str(e)] does, which is to return
    [exc_message], or to raise [e'] when [str_raises] is [Some e'] (the
    [__str__] of an exception class is code like any other); and whether
    [e] is an instance of [Exception].  [KeyboardInterrupt], [SystemExit]
    and [GeneratorExit] derive from [BaseException] only, and
    [except Exception] lets them pass. *)
Inductive PyExc : Type := mkExc {
  exc_class : string;
  exc_message : string;
  is_Exception : bool;
  str_raises : option PyExc
}.

(** The outcome of a call: a value, or a raised exception. *)
Inductive Result (A : Type) : Type :=
| Ok (a : A)
| Raise (e : PyExc).
Arguments Ok {A} a.
Arguments Raise {A} e.

(** [str(e)] on an exception *)
Definition str_of_exception (e : PyExc) : Result string :=
  match str_raises e with
  | Some e' => Raise e'
  | None => Ok (exc_message e)
  end.

(** What [model.infer] may hand back.  The remote model code decides the
    type: a [str], [None] (the shipped model prints its text and returns
    nothing unless asked otherwise), a [bool], or any other object, for
    which [str] gives a string or raises. *)
Inductive PyVal : Type :=
| PyStr (s : string)
| PyNone
| PyBool (b : bool)
| PyObject (to_str : Result string).

(** [isinstance(v, str)] *)
Definition isinstance_str (v : PyVal) : bool :=
  match v with
  | PyStr _ => true
  | _ => false
  end.

(** [str(v)] *)
Definition str (v : PyVal) : Result string :=
  match v with
  | PyStr s => Ok s
  | PyNone => Ok "None"
  | PyBool true => Ok "True"
  | PyBool false => Ok "False"
  | PyObject r => r
  end.

End Py.
Export Py.

(** ** JSON values and [json.dumps] *)

Module Json.

(** The fragment of JSON that the script builds, with [JNull] beside it
    so that "not null" says something.  An object is an association list
    in insertion order, which is the order [json.dumps] writes a [dict]
    in.  A float is kept as the decimal literal of the source. *)
Inductive JSON : Type :=
| JNull
| JString (s : string)
| JFloat (d : decimal)
| JObject (fields : list (string * JSON)).

Definition dquote : ascii := "034"%char.
Definition backslash : ascii := "092"%char.

Definition hex_digit (n : N) : ascii :=
  match n with
  | 0%N => "0" | 1%N => "1" | 2%N => "2" | 3%N => "3"
  | 4%N => "4" | 5%N => "5" | 6%N => "6" | 7%N => "7"
  | 8%N => "8" | 9%N => "9" | 10%N => "a" | 11%N => "b"
  | 12%N => "c" | 13%N => "d" | 14%N => "e" | _ => "f"
  end%char.

(** One ASCII character of a string under [ensure_ascii=True], the
    default: the short escapes, the printable range as it is, and a
    [\u00xx] escape for the other control characters. *)
Definition escape_char (c : ascii) : string :=
  let n := N_of_ascii c in
  if (n =? 34)%N then String backslash (String dquote "")
  else if (n =? 92)%N then String backslash (String backslash "")
  else if (n =? 10)%N then String backslash "n"
  else if (n =? 13)%N then String backslash "r"
  else if (n =? 9)%N then String backslash "t"
  else if (n =? 8)%N then String backslash "b"
  else if (n =? 12)%N then String backslash "f"
  else if ((32 <=? n) && (n <=? 126))%N then String c ""
  else String backslash
         ("u00" ++ String (hex_digit (n / 16)) (String (hex_digit (n mod 16)) "")).

Definition hex4 (n : N) : string :=
  String (hex_digit (n / 4096 mod 16))
    (String (hex_digit (n / 256 mod 16))
       (String (hex_digit (n / 16 mod 16))
          (String (hex_digit (n mod 16)) ""))).

(** A code point beyond ASCII: [\uxxxx], and a surrogate pair from
    U+10000 on. *)
Definition escape_code_point (cp : N) : string :=
  if (cp <? 65536)%N then String backslash ("u" ++ hex4 cp)
  else
    let v := (cp - 65536)%N in
    String backslash ("u" ++ hex4 (55296 + v / 1024))
    ++ String backslash ("u" ++ hex4 (56320 + v mod 1024)).

(** Bytes that are no UTF-8 stand for no Python string; they are written
    as U+FFFD, so that [escape] is total. *)
Definition replacement : string := escape_code_point 65533.

(** The first byte of a character: the text to write, the number of
    continuation bytes to come, and the bits read so far. *)
Definition start (c : ascii) : string * nat * N :=
  let n := N_of_ascii c in
  if (n <? 128)%N then (escape_char c, 0%nat, 0%N)
  else if (n <? 192)%N then (replacement, 0%nat, 0%N)
  else if (n <? 224)%N then ("", 1%nat, (n - 192)%N)
  else if (n <? 240)%N then ("", 2%nat, (n - 224)%N)
  else if (n <? 248)%N then ("", 3%nat, (n - 240)%N)
  else (replacement, 0%nat, 0%N).

(** One more byte, with [pending] continuation bytes expected. *)
Definition step (pending : nat) (acc : N) (c : ascii) : string * nat * N :=
  match pending with
  | O => start c
  | S k =>
      let n := N_of_ascii c in
      if ((128 <=? n) && (n <? 192))%N then
        let acc' := (acc * 64 + (n - 128))%N in
        match k with
        | O => (escape_code_point acc', 0%nat, 0%N)
        | S _ => ("", k, acc')
        end
      else
        let '(out, p, a) := start c in (replacement ++ out, p, a)
  end.

Fixpoint escape_from (pending : nat) (acc : N) (s : string) : string :=
  match s with
  | EmptyString => match pending with O => "" | S _ => replacement end
  | String c rest =>
      let '(out, p, a) := step pending acc c in
      out ++ escape_from p a rest
  end.

(** The characters of a string, decoded from UTF-8 and escaped. *)
Definition escape (s : string) : string := escape_from 0 0 s.

Definition quoted (s : string) : string :=
  String dquote (escape s) ++ String dquote "".

(** [float.__repr__] of a literal [i.f]. *)
Definition float_repr (d : decimal) : string :=
  match d with
  | Decimal i f => NilZero.string_of_int i ++ "." ++ NilEmpty.string_of_uint f
  | DecimalExp i f e =>
      NilZero.string_of_int i ++ "." ++ NilEmpty.string_of_uint f
        ++ "e" ++ NilZero.string_of_int e
  end.

(** [json.dumps] with its default separators [", "] and [": "]. *)
Fixpoint dumps (j : JSON) : string :=
  match j with
  | JNull => "null"
  | JString s => quoted s
  | JFloat d => float_repr d
  | JObject fields =>
      "{" ++
      (fix items (l : list (string * JSON)) : string :=
         match l with
         | [] => ""
         | [(k, v)] => quoted k ++ ": " ++ dumps v
         | (k, v) :: rest => quoted k ++ ": " ++ dumps v ++ ", " ++ items rest
         end) fields
      ++ "}"
  end.

(** [obj[key]] on an object, [None] when the key is absent or the value
    is no object. *)
Fixpoint assoc (key : string) (l : list (string * JSON)) : option JSON :=
  match l with
  | [] => None
  | (k, v) :: rest => if String.eqb k key then Some v else assoc key rest
  end.

Definition field (key : string) (j : JSON) : option JSON :=
  match j with
  | JObject fields => assoc key fields
  | _ => None
  end.

End Json.
Export Json.

(** ** The external world and the state of a run *)

Inductive torch_dtype : Type := float32 | float16 | bfloat16.

(** The two ways [parse_args] rejects a command line. *)
Inductive ArgparseError : Type :=
| MissingImagePath
| UnrecognizedArguments (extras : list string).

(** The external calls the script makes, each with its outcome.  The types
    of tokenizers and models belong to the library. *)
Record World : Type := mkWorld {
  Tokenizer : Type;
  Model : Type;
  (** [AutoTokenizer.from_pretrained(path, trust_remote_code=...)] *)
  AutoTokenizer_from_pretrained : string -> bool -> Result Tokenizer;
  (** [AutoModel.from_pretrained(path, trust_remote_code=..., torch_dtype=...)] *)
  AutoModel_from_pretrained : string -> bool -> torch_dtype -> Result Model;
  (** [torch.cuda.is_available()], a fact of the machine *)
  cuda_is_available : bool;
  (** [model.cuda()] *)
  Model_cuda : Model -> Result Model;
  (** [model.eval()] *)
  Model_eval : Model -> Result Model;
  (** [model.infer]: the lookup of the attribute, which raises on a model
      class that has no [infer], and gives the method to call as
      [infer(tokenizer, prompt=, image_file=, base_size=, image_size=)];
      the method may behave differently with gradient tracking on or off
      (its first argument here) *)
  Model_infer :
    Model -> Result (bool -> Tokenizer -> string -> string -> Z -> Z -> Result PyVal);
  (** the text [argparse] writes when it ends the process itself: its
      help, or its usage and error message *)
  argparse_help : string;
  argparse_error : ArgparseError -> string
}.

(** The external calls as they appear in the log. *)
Inductive Call : Type :=
| CallTokenizer (model_path : string) (trust_remote_code : bool)
| CallModel (model_path : string) (trust_remote_code : bool) (dtype : torch_dtype)
| CallCudaIsAvailable
| CallCuda
| CallEval
| CallInfer (grad_enabled : bool) (prompt image_file : string) (base_size image_size : Z).

Inductive Stream : Type := Stdout | Stderr.

(** What a run can change.  A stream is the list of the texts printed to
    it, each of which [print] ends with a newline. *)
Record State : Type := mkState {
  grad_enabled : bool;
  stdout : list string;
  stderr : list string;
  calls : list Call
}.

(** A fresh interpreter: gradient tracking is on, nothing was printed. *)
Definition initial_state : State :=
  {| grad_enabled := true; stdout := []; stderr := []; calls := [] |}.

Definition set_grad_enabled (b : bool) (s : State) : State :=
  {| grad_enabled := b; stdout := stdout s; stderr := stderr s; calls := calls s |}.

Definition log (c : Call) (s : State) : State :=
  {| grad_enabled := grad_enabled s; stdout := stdout s; stderr := stderr s;
     calls := calls s ++ [c] |}.

Definition write (f : Stream) (text : string) (s : State) : State :=
  match f with
  | Stdout => {| grad_enabled := grad_enabled s; stdout := stdout s ++ [text];
                 stderr := stderr s; calls := calls s |}
  | Stderr => {| grad_enabled := grad_enabled s; stdout := stdout s;
                 stderr := stderr s ++ [text]; calls := calls s |}
  end.

(** ** Computations that change the state and may raise *)

Definition M (A : Type) : Type := State -> Result A * State.

Definition ret {A} (a : A) : M A := fun s => (Ok a, s).

Definition bind {A B} (m : M A) (k : A -> M B) : M B :=
  fun s =>
    match m s with
    | (Ok a, s') => k a s'
    | (Raise e, s') => (Raise e, s')
    end.

Declare Scope py_scope.
Delimit Scope py_scope with py.
Notation "x <- m ;; k" := (bind m (fun x => k))
  (at level 100, m at next level, right associativity) : py_scope.
Notation "m ;; k" := (bind m (fun _ => k))
  (at level 100, right associativity) : py_scope.

(** An external call: its outcome is the world's, and the call is logged. *)
Definition external {A} (c : Call) (r : Result A) : M A :=
  fun s => (r, log c s).

(** A pure step that may raise, such as [str(result)]. *)
Definition lift {A} (r : Result A) : M A := fun s => (r, s).

(** [print(text, file=f)].  A write to a stream always goes through: a
    closed pipe is outside the model. *)
Definition print (f : Stream) (text : string) : M unit :=
  fun s => (Ok tt, write f text s).

(** [with torch.no_grad(): body].  Entering saves the gradient mode and
    turns it off; leaving restores it, also when the body raises. *)
Definition no_grad {A} (body : M A) : M A :=
  fun s =>
    let prev := grad_enabled s in
    let (r, s') := body (set_grad_enabled false s) in
    (r, set_grad_enabled prev s').

(** [try: body / except Exception as e: handler(e)].  An exception that is
    no instance of [Exception] is not caught. *)
Definition try_except_Exception {A} (body : M A) (handler : PyExc -> M A) : M A :=
  fun s =>
    match body s with
    | (Ok a, s') => (Ok a, s')
    | (Raise e, s') => if is_Exception e then handler e s' else (Raise e, s')
    end.

(** ** [run_ocr] *)

Definition default_model_path : string := "deepseek-ai/DeepSeek-OCR".

(** The literal [0.85] of line 54. *)
Definition confidence : decimal := Decimal (Pos (D0 Nil)) (D8 (D5 Nil)).

Section RunOcr.

Variable w : World.

(** Lines 28-39: load the tokenizer and the model, move the model to the
    GPU if there is one, switch it to evaluation mode. *)
Definition load_model (model_path : string) : M (Tokenizer w * Model w) :=
  (tokenizer <- external (CallTokenizer model_path true)
                  (AutoTokenizer_from_pretrained w model_path true);;
   model <- external (CallModel model_path true bfloat16)
              (AutoModel_from_pretrained w model_path true bfloat16);;
   available <- external CallCudaIsAvailable (Ok (cuda_is_available w));;
   model <- (if (available : bool)
             then external CallCuda (Model_cuda w model)
             else ret model);;
   model <- external CallEval (Model_eval w model);;
   ret (tokenizer, model))%py.

(** Lines 43-49: [model.infer] is looked up, which may raise before any
    call is made, and then called in the gradient mode of the moment. *)
Definition call_infer (tokenizer : Tokenizer w) (model : Model w)
    (prompt image_path : string) : M PyVal :=
  (infer <- lift (Model_infer w model);;
   fun s =>
     (infer (grad_enabled s) tokenizer prompt image_path 1024 640,
      log (CallInfer (grad_enabled s) prompt image_path 1024 640) s))%py.

(** Lines 42-49 *)
Definition run_inference (tokenizer : Tokenizer w) (model : Model w)
    (prompt image_path : string) : M PyVal :=
  no_grad (call_infer tokenizer model prompt image_path).

(** Lines 52-59: the [output] dictionary.  Its values are evaluated in
    the order written: [str(result)] first, the second availability
    query last. *)
Definition build_output (model_path : string) (result : PyVal) : M JSON :=
  (text <- match result with
           | PyStr s => ret s
           | other => lift (Py.str other)
           end;;
   available <- external CallCudaIsAvailable (Ok (cuda_is_available w));;
   ret (JObject
          [("text", JString text);
           ("confidence", JFloat confidence);
           ("metadata",
            JObject [("model", JString model_path);
                     ("device", JString (if (available : bool) then "cuda" else "cpu"))])]))%py.

(** Lines 27-62: the body of the [try]. *)
Definition try_body (image_path prompt model_path : string) : M Z :=
  (loaded <- load_model model_path;;
   result <- run_inference (fst loaded) (snd loaded) prompt image_path;;
   output <- build_output model_path result;;
   print Stdout (dumps output);;
   ret 0)%py.

(** Lines 65-70: the body of the [except].  [str(e)] is evaluated first
    and may raise, in which case nothing is printed and the new exception
    leaves [run_ocr]. *)
Definition except_body (e : PyExc) : M Z :=
  (message <- lift (str_of_exception e);;
   let error_output :=
     JObject [("error", JString message);
              ("type", JString (exc_class e))] in
   print Stderr (dumps error_output);;
   ret 1)%py.

Definition run_ocr (image_path prompt model_path : string) : M Z :=
  try_except_Exception (try_body image_path prompt model_path) except_body.

End RunOcr.

(** ** [main] *)

(** The default of [--prompt], line 76. *)
Definition default_prompt : string :=
  "<image>" ++ String "010"%char "<|grounding|>Extract all text from this document.".

(** A command line as [argparse] reads it for this parser: positional
    words, [--prompt VALUE], [--model VALUE] and [-h]/[--help], in the order
    given. *)
Inductive Arg : Type :=
| ArgPositional (value : string)
| ArgPrompt (value : string)
| ArgModel (value : string)
| ArgHelp.

(** The namespace that [parse_args] returns. *)
Record Namespace : Type := mkNamespace {
  image_path : string;
  prompt : string;
  model : string
}.

Inductive Parse : Type :=
| Parsed (args : Namespace)
| ParseHelp
| ParseError (err : ArgparseError).

(** One pass over the command line: the positional words in order, and for
    each option its default until a flag stores a value (the last one
    wins).  [None] when help is asked for, which ends the parse at once. *)
Fixpoint scan (argv : list Arg) (positionals : list string) (prompt model : string)
  : option (list string * string * string) :=
  match argv with
  | [] => Some (positionals, prompt, model)
  | ArgPositional v :: rest => scan rest (positionals ++ [v]) prompt model
  | ArgPrompt v :: rest => scan rest positionals v model
  | ArgModel v :: rest => scan rest positionals prompt v
  | ArgHelp :: _ => None
  end.

(** Lines 74-81: the parser with its three arguments and their defaults. *)
Definition parse_args (argv : list Arg) : Parse :=
  match scan argv [] default_prompt default_model_path with
  | None => ParseHelp
  | Some ([], _, _) => ParseError MissingImagePath
  | Some ([path], prompt, model) =>
      Parsed {| image_path := path; prompt := prompt; model := model |}
  | Some (_ :: extras, _, _) => ParseError (UnrecognizedArguments extras)
  end.

(** Lines 73-84.  The value is the status the process exits with:
    [argparse] exits with 0 after its help and with 2 after an error, and
    the script passes the value of [run_ocr] to [sys.exit]. *)
Definition main (w : World) (argv : list Arg) : M Z :=
  match parse_args argv with
  | ParseHelp => fun s => (Ok 0, write Stdout (argparse_help w) s)
  | ParseError err => fun s => (Ok 2, write Stderr (argparse_error w err) s)
  | Parsed args =>
      (exit_code <- run_ocr w (image_path args) (prompt args) (model args);;
       ret exit_code)%py
  end.

(** ** Sample worlds *)

Definition KeyboardInterrupt : PyExc := mkExc "KeyboardInterrupt" "" false None.
Definition SystemExit : PyExc := mkExc "SystemExit" "1" false None.
Definition TypeError : PyExc :=
  mkExc "TypeError" "__str__ returned non-string (type bytes)" true None.
Definition OSError : PyExc :=
  mkExc "OSError" "no-such/model is not a local folder and is not a valid model identifier"
    true None.
Definition FileNotFoundError : PyExc :=
  mkExc "FileNotFoundError" "[Errno 2] No such file or directory: 'missing.png'"
    true None.
Definition AttributeError : PyExc :=
  mkExc "AttributeError" "'BertModel' object has no attribute 'infer'" true None.
Definition RuntimeError : PyExc := mkExc "RuntimeError" "no message" true None.

(** An instance of [Exception] whose [__str__] raises. *)
Definition BadError : PyExc := mkExc "BadError" "" true (Some RuntimeError).

(** A machine with or without a GPU, on which the two loads and the
    inference call have the given outcomes, whatever their arguments. *)
Definition sample_world (cuda : bool) (tokenizer model : Result unit)
    (result : Result PyVal) : World :=
  {| Tokenizer := unit;
     Model := unit;
     AutoTokenizer_from_pretrained := fun _ _ => tokenizer;
     AutoModel_from_pretrained := fun _ _ _ => model;
     cuda_is_available := cuda;
     Model_cuda := fun m => Ok m;
     Model_eval := fun m => Ok m;
     Model_infer := fun _ => Ok (fun _ _ _ _ _ _ => result);
     argparse_help := "usage";
     argparse_error := fun _ => "usage" |}.

Definition cpu_world : World := sample_world false (Ok tt) (Ok tt) (Ok PyNone).
Definition gpu_world : World := sample_world true (Ok tt) (Ok tt) (Ok (PyStr "Invoice 42")).
Definition interrupted_world : World :=
  sample_world false (Raise KeyboardInterrupt) (Ok tt) (Ok PyNone).
Definition exiting_world : World :=
  sample_world true (Ok tt) (Raise SystemExit) (Ok PyNone).
Definition interrupted_inference_world : World :=
  sample_world true (Ok tt) (Ok tt) (Raise KeyboardInterrupt).
Definition unprintable_world : World :=
  sample_world false (Ok tt) (Ok tt) (Ok (PyObject (Raise TypeError))).
Definition no_model_world : World :=
  sample_world false (Ok tt) (Raise OSError) (Ok PyNone).
Definition no_tokenizer_world : World :=
  sample_world true (Raise OSError) (Ok tt) (Ok PyNone).
Definition bad_error_world : World :=
  sample_world false (Raise BadError) (Ok tt) (Ok PyNone).

(** Another model class is loaded, which has no [infer]. *)
Definition no_infer_world : World :=
  {| Tokenizer := unit;
     Model := unit;
     AutoTokenizer_from_pretrained := fun _ _ => Ok tt;
     AutoModel_from_pretrained := fun _ _ _ => Ok tt;
     cuda_is_available := false;
     Model_cuda := fun m => Ok m;
     Model_eval := fun m => Ok m;
     Model_infer := fun _ => Raise AttributeError;
     argparse_help := "usage";
     argparse_error := fun _ => "usage" |}.
Definition no_image_world : World :=
  sample_world false (Ok tt) (Ok tt) (Raise FileNotFoundError).

(** ** What the statements are made of *)

(** The calls of [model.infer] in a log. *)
Definition is_infer (c : Call) : bool :=
  match c with
  | CallInfer _ _ _ _ _ => true
  | _ => false
  end.

Definition infer_calls (l : list Call) : list Call := filter is_infer l.

(** [s'] differs from [s] by the calls [new] only. *)
Definition frame (s s' : State) (new : list Call) : Prop :=
  grad_enabled s' = grad_enabled s /\
  stdout s' = stdout s /\
  stderr s' = stderr s /\
  calls s' = (calls s ++ new)%list.

(** A run from [s] that gets through the [try]: inference returned
    [result], [output] was built from it and printed, leaving [s']. *)
Definition succeeds (w : World) (image_path prompt model_path : string)
    (s : State) (result : PyVal) (output : JSON) (s' : State) : Prop :=
  exists loaded s1 s2 s3,
    load_model w model_path s = (Ok loaded, s1) /\
    run_inference w (fst loaded) (snd loaded) prompt image_path s1 = (Ok result, s2) /\
    build_output w model_path result s2 = (Ok output, s3) /\
    s' = write Stdout (dumps output) s3.

(** The two shapes of output. *)
Definition success_object (j : JSON) : Prop :=
  exists text model device,
    j = JObject [("text", JString text);
                 ("confidence", JFloat confidence);
                 ("metadata", JObject [("model", JString model);
                                       ("device", JString device)])].

Definition error_object (j : JSON) : Prop :=
  exists message class,
    j = JObject [("error", JString message); ("type", JString class)].

(** The envelope for [e]. *)
Definition envelope (e : PyExc) : JSON :=
  JObject [("error", JString (exc_message e)); ("type", JString (exc_class e))].

Definition success_shape (s : State) (r : Result Z * State) : Prop :=
  fst r = Ok 0 /\
  exists j, success_object j /\ stdout (snd r) = (stdout s ++ [dumps j])%list.

Definition failure_shape (s : State) (r : Result Z * State) : Prop :=
  fst r = Ok 1 /\
  exists j, error_object j /\ stderr (snd r) = (stderr s ++ [dumps j])%list.

(** [output["metadata"]["device"]] *)
Definition device_of (output : JSON) : option JSON :=
  match field "metadata" output with
  | Some metadata => field "device" metadata
  | None => None
  end.

(** The hypothesis of the statements about ordinary failures: whatever
    the [try] body raises in this run is an instance of [Exception], and
    [str] of it returns. *)
Definition failures_are_reportable (w : World) (image_path prompt model_path : string)
    (s : State) : Prop :=
  forall e s1,
    try_body w image_path prompt model_path s = (Raise e, s1) ->
    is_Exception e = true /\ exists message, str_of_exception e = Ok message.

(** What a computation adds to a state. *)
Definition advance (out err : list string) (new : list Call) (s : State) : State :=
  {| grad_enabled := grad_enabled s;
     stdout := stdout s ++ out;
     stderr := stderr s ++ err;
     calls := calls s ++ new |}.

(** A computation is uniform when its outcome and what it adds do not
    depend on the state it starts from. *)
Definition uniform {A} (m : M A) : Prop :=
  exists r out err new, forall s, m s = (r, advance out err new s).

(** The external calls of lines 28-39 when none of them raises, in the
    order they are made. *)
Definition load_calls (w : World) (model_path : string) : list Call :=
  [CallTokenizer model_path true;
   CallModel model_path true bfloat16;
   CallCudaIsAvailable]
  ++ (if cuda_is_available w then [CallCuda] else [])
  ++ [CallEval].

(** The external calls of a whole run that gets through the [try]. *)
Definition expected_calls (w : World) (image_path prompt model_path : string)
  : list Call :=
  load_calls w model_path
  ++ [CallInfer false prompt image_path 1024 640; CallCudaIsAvailable].

(** Printable ASCII: the characters from the space to the tilde. *)
Definition printable (c : ascii) : bool :=
  ((32 <=? N_of_ascii c) && (N_of_ascii c <=? 126))%N.

Fixpoint all_printable (s : string) : bool :=
  match s with
  | EmptyString => true
  | String c rest => printable c && all_printable rest
  end.

(** A command line read without the parser: its positional words, whether
    it asks for help, and the value of the last [--prompt] and of the last
    [--model], or the given default when there is none. *)
Fixpoint positionals (argv : list Arg) : list string :=
  match argv with
  | [] => []
  | ArgPositional v :: rest => v :: positionals rest
  | _ :: rest => positionals rest
  end.

Fixpoint has_help (argv : list Arg) : bool :=
  match argv with
  | [] => false
  | ArgHelp :: _ => true
  | _ :: rest => has_help rest
  end.

Fixpoint last_prompt (argv : list Arg) (default : string) : string :=
  match argv with
  | [] => default
  | ArgPrompt v :: rest => last_prompt rest v
  | _ :: rest => last_prompt rest default
  end.

Fixpoint last_model (argv : list Arg) (default : string) : string :=
  match argv with
  | [] => default
  | ArgModel v :: rest => last_model rest v
  | _ :: rest => last_model rest default
  end.

(** ** The phases of [run_ocr] *)

Lemma frame_refl (s : State) : frame s s [].
Proof. unfold frame. rewrite app_nil_r. auto. Qed.

Lemma frame_trans (s s1 s2 : State) (a b : list Call) :
  frame s s1 a -> frame s1 s2 b -> frame s s2 (a ++ b)%list.
Proof.
  unfold frame. intros (G1 & O1 & E1 & C1) (G2 & O2 & E2 & C2).
  rewrite G2, O2, E2, C2, G1, O1, E1, C1, app_assoc. auto.
Qed.

Lemma frame_log (s : State) (c : Call) : frame s (log c s) [c].
Proof. unfold frame, log. simpl. auto. Qed.

Lemma infer_calls_app (a b : list Call) :
  infer_calls (a ++ b)%list = (infer_calls a ++ infer_calls b)%list.
Proof. apply filter_app. Qed.

Section Phases.

Variable w : World.

Lemma external_frame {A} (c : Call) (r r' : Result A) (s s' : State) :
  external c r s = (r', s') -> r' = r /\ frame s s' [c].
Proof.
  unfold external. intros H. inversion H. subst. split; [reflexivity | apply frame_log].
Qed.

(** Loading prints nothing, keeps the gradient mode and calls no
    inference. *)
Lemma load_model_frame (model_path : string) (s s' : State)
    (r : Result (Tokenizer w * Model w)) :
  load_model w model_path s = (r, s') ->
  exists new, frame s s' new /\ infer_calls new = [].
Proof.
  unfold load_model, bind, external, ret.
  destruct (AutoTokenizer_from_pretrained w model_path true) as [tok | e];
    [destruct (AutoModel_from_pretrained w model_path true bfloat16) as [mdl | e];
     [destruct (cuda_is_available w);
      [destruct (Model_cuda w mdl) as [mdl' | e];
       [destruct (Model_eval w mdl') as [mdl'' | e] | ]
      | destruct (Model_eval w mdl) as [mdl'' | e] ] | ] | ];
    intros H; inversion H; subst; clear H;
    eexists; (split; [ | shelve ]);
    unfold frame, log; simpl; repeat split;
    rewrite <- ?app_assoc; simpl; reflexivity.
  Unshelve. all: reflexivity.
Qed.

(** Inference is the lookup of [model.infer] and, if that gives a method,
    one call of it, made with gradient tracking off and the two fixed
    sizes; the mode it found is restored. *)
Lemma run_inference_frame (tok : Tokenizer w) (mdl : Model w)
    (prompt image_path : string) (s s' : State) (r : Result PyVal) :
  run_inference w tok mdl prompt image_path s = (r, s') ->
  (exists infer,
      Model_infer w mdl = Ok infer /\
      r = infer false tok prompt image_path 1024 640 /\
      frame s s' [CallInfer false prompt image_path 1024 640])
  \/
  (exists e, Model_infer w mdl = Raise e /\ r = Raise e /\ frame s s' []).
Proof.
  unfold run_inference, no_grad, call_infer, bind, lift.
  destruct (Model_infer w mdl) as [infer | e]; simpl;
    intros H; inversion H; subst; [left | right]; eexists;
    (split; [reflexivity | split; [reflexivity | ]]);
    unfold frame; simpl; rewrite ?app_nil_r; auto.
Qed.

(** Building the output prints nothing and calls no inference. *)
Lemma build_output_frame (model_path : string) (result : PyVal)
    (s s' : State) (r : Result JSON) :
  build_output w model_path result s = (r, s') ->
  exists new, frame s s' new /\ infer_calls new = [].
Proof.
  unfold build_output, bind, external, lift, ret.
  destruct result as [t | | [ | ] | [t | e]]; simpl;
    intros H; inversion H; subst; clear H;
    first [ exists [CallCudaIsAvailable]; split; [apply frame_log | reflexivity]
          | exists []; split; [apply frame_refl | reflexivity] ].
Qed.

End Phases.

(** ** The outcomes of [run_ocr] *)

Section Outcomes.

Variable w : World.
Variables image_path prompt model_path : string.

Let the_call : Call := CallInfer false prompt image_path 1024 640.

(** [run_ocr] by the outcome of its [try] body and of [str(e)]. *)
Lemma run_ocr_unfold (s : State) :
  run_ocr w image_path prompt model_path s =
  match try_body w image_path prompt model_path s with
  | (Ok code, s') => (Ok code, s')
  | (Raise e, s') =>
      if is_Exception e
      then match str_raises e with
           | None => (Ok 1, write Stderr (dumps (envelope e)) s')
           | Some e' => (Raise e', s')
           end
      else (Raise e, s')
  end.
Proof.
  unfold run_ocr, try_except_Exception.
  destruct (try_body w image_path prompt model_path s) as [[code | e] s'];
    [reflexivity | ].
  destruct (is_Exception e); [ | reflexivity].
  unfold except_body, bind, lift, str_of_exception, envelope.
  destruct (str_raises e); reflexivity.
Qed.

Lemma succeeds_try_body (s s' : State) (result : PyVal) (output : JSON) :
  succeeds w image_path prompt model_path s result output s' ->
  try_body w image_path prompt model_path s = (Ok 0, s').
Proof.
  intros (loaded & s1 & s2 & s3 & L & I & B & ->).
  unfold try_body, bind. rewrite L, I, B. reflexivity.
Qed.

Lemma try_body_Ok (s s' : State) (code : Z) :
  try_body w image_path prompt model_path s = (Ok code, s') ->
  code = 0 /\
  exists result output, succeeds w image_path prompt model_path s result output s'.
Proof.
  unfold try_body, bind, print, ret.
  destruct (load_model w model_path s) as [[loaded | e] s1] eqn:L; [ | discriminate].
  destruct (run_inference w (fst loaded) (snd loaded) prompt image_path s1)
    as [[result | e] s2] eqn:I; [ | discriminate].
  destruct (build_output w model_path result s2) as [[output | e] s3] eqn:B;
    [ | discriminate].
  intros H. inversion H. subst. split; [reflexivity | ].
  exists result, output, loaded, s1, s2, s3. auto.
Qed.

(** A successful run printed nothing but its output, and called
    [model.infer] once. *)
Lemma succeeds_frame (s s' : State) (result : PyVal) (output : JSON) :
  succeeds w image_path prompt model_path s result output s' ->
  exists s3 new,
    s' = write Stdout (dumps output) s3 /\
    frame s s3 new /\
    infer_calls new = [the_call].
Proof.
  intros (loaded & s1 & s2 & s3 & L & I & B & ->).
  apply load_model_frame in L. destruct L as (a & Fa & Na).
  apply run_inference_frame in I.
  destruct I as [(infer & _ & _ & Fi) | (e & _ & He & _)]; [ | discriminate He].
  apply build_output_frame in B. destruct B as (b & Fb & Nb).
  exists s3, ((a ++ [the_call]) ++ b)%list. split; [reflexivity | split].
  - eauto using frame_trans.
  - rewrite !infer_calls_app, Na, Nb. reflexivity.
Qed.

(** A run whose [try] body raises printed nothing in the body, and called
    [model.infer] at most once. *)
Lemma try_body_Raise (s s' : State) (e : PyExc) :
  try_body w image_path prompt model_path s = (Raise e, s') ->
  exists new,
    frame s s' new /\
    (infer_calls new = [] \/ infer_calls new = [the_call]).
Proof.
  unfold try_body, bind, print, ret.
  destruct (load_model w model_path s) as [[loaded | e1] s1] eqn:L.
  - pose proof (load_model_frame _ _ _ _ _ L) as (a & Fa & Na).
    destruct (run_inference w (fst loaded) (snd loaded) prompt image_path s1)
      as [[result | e2] s2] eqn:I;
      pose proof (run_inference_frame _ _ _ _ _ _ _ _ I)
        as [(infer & _ & _ & Fi) | (e' & _ & He & Fi)];
      try discriminate He.
    + destruct (build_output w model_path result s2) as [[output | e3] s3] eqn:B;
        [discriminate | ].
      pose proof (build_output_frame _ _ _ _ _ _ B) as (b & Fb & Nb).
      intros H. inversion H. subst.
      exists ((a ++ [the_call]) ++ b)%list. split; [eauto using frame_trans | ].
      right. rewrite !infer_calls_app, Na, Nb. reflexivity.
    + intros H. inversion H. subst.
      exists (a ++ [the_call])%list. split; [eauto using frame_trans | ].
      right. rewrite infer_calls_app, Na. reflexivity.
    + intros H. inversion H. subst.
      exists (a ++ [])%list. split; [eauto using frame_trans | ].
      left. rewrite app_nil_r. exact Na.
  - pose proof (load_model_frame _ _ _ _ _ L) as (a & Fa & Na).
    intros H. inversion H. subst.
    exists a. split; [assumption | ]. left. assumption.
Qed.

(** The four outcomes of a run: the body gets through; it raises an
    instance of [Exception] that the handler reports; it raises something
    else, which leaves [run_ocr]; it raises an instance of [Exception]
    whose [str] raises, and that second exception leaves [run_ocr]. *)
Lemma run_ocr_cases (s : State) :
  (exists result output s',
      succeeds w image_path prompt model_path s result output s' /\
      run_ocr w image_path prompt model_path s = (Ok 0, s'))
  \/
  (exists e s1,
      try_body w image_path prompt model_path s = (Raise e, s1) /\
      is_Exception e = true /\ str_raises e = None /\
      run_ocr w image_path prompt model_path s
      = (Ok 1, write Stderr (dumps (envelope e)) s1))
  \/
  (exists e s1,
      try_body w image_path prompt model_path s = (Raise e, s1) /\
      is_Exception e = false /\
      run_ocr w image_path prompt model_path s = (Raise e, s1))
  \/
  (exists e e' s1,
      try_body w image_path prompt model_path s = (Raise e, s1) /\
      is_Exception e = true /\ str_raises e = Some e' /\
      run_ocr w image_path prompt model_path s = (Raise e', s1)).
Proof.
  rewrite run_ocr_unfold.
  destruct (try_body w image_path prompt model_path s) as [[code | e] s1] eqn:T.
  - apply try_body_Ok in T. destruct T as (-> & result & output & S).
    left. eauto.
  - destruct (is_Exception e) eqn:E.
    + destruct (str_raises e) as [e' | ] eqn:Hstr.
      * right. right. right. eauto 10.
      * right. left. eauto 10.
    + right. right. left. eauto.
Qed.

Lemma run_ocr_Ok0 (s s' : State) :
  run_ocr w image_path prompt model_path s = (Ok 0, s') ->
  exists result output, succeeds w image_path prompt model_path s result output s'.
Proof.
  rewrite run_ocr_unfold.
  destruct (try_body w image_path prompt model_path s) as [[code | e] s1] eqn:T.
  - intros H. inversion H. subst. apply try_body_Ok in T. tauto.
  - destruct (is_Exception e); [destruct (str_raises e) | ]; discriminate.
Qed.

End Outcomes.

(** The output that is built: the text is the result itself or its
    [str], the rest is fixed by the model path and the machine. *)
Lemma build_output_Ok (w : World) (model_path : string) (result : PyVal)
    (s s' : State) (output : JSON) :
  build_output w model_path result s = (Ok output, s') ->
  exists text,
    (if isinstance_str result then result = PyStr text else Py.str result = Ok text) /\
    output = JObject
               [("text", JString text);
                ("confidence", JFloat confidence);
                ("metadata",
                 JObject [("model", JString model_path);
                          ("device",
                           JString (if cuda_is_available w then "cuda" else "cpu"))])].
Proof.
  unfold build_output, bind, external, lift, ret.
  destruct result as [t | | [ | ] | [t | e]]; simpl;
    intros H; inversion H; subst; clear H; eauto.
Qed.

Lemma succeeds_output (w : World) (image_path prompt model_path : string)
    (s s' : State) (result : PyVal) (output : JSON) :
  succeeds w image_path prompt model_path s result output s' ->
  stdout s' = (stdout s ++ [dumps output])%list /\
  stderr s' = stderr s /\
  exists text,
    (if isinstance_str result then result = PyStr text else Py.str result = Ok text) /\
    output = JObject
               [("text", JString text);
                ("confidence", JFloat confidence);
                ("metadata",
                 JObject [("model", JString model_path);
                          ("device",
                           JString (if cuda_is_available w then "cuda" else "cpu"))])].
Proof.
  intros S. pose proof (succeeds_frame _ _ _ _ _ _ _ _ S) as (s3 & new & -> & F & _).
  destruct F as (_ & O & E & _). simpl. rewrite O, E.
  destruct S as (loaded & s1 & s2 & s3' & _ & _ & B & _).
  apply build_output_Ok in B. auto.
Qed.

Lemma envelope_is_error_object (e : PyExc) : error_object (envelope e).
Proof. unfold error_object, envelope. eauto. Qed.

(** ** Two runs, step by step *)

(** On a machine without a GPU, with the shipped model, whose [infer]
    returns [None]: six external calls, one line on standard output. *)
Example cpu_run :
  run_ocr cpu_world "scan.png" default_prompt default_model_path initial_state
  = (Ok 0,
     {| grad_enabled := true;
        stdout :=
          [dumps (JObject
                    [("text", JString "None");
                     ("confidence", JFloat confidence);
                     ("metadata", JObject [("model", JString "deepseek-ai/DeepSeek-OCR");
                                           ("device", JString "cpu")])])];
        stderr := [];
        calls :=
          [CallTokenizer "deepseek-ai/DeepSeek-OCR" true;
           CallModel "deepseek-ai/DeepSeek-OCR" true bfloat16;
           CallCudaIsAvailable;
           CallEval;
           CallInfer false default_prompt "scan.png" 1024 640;
           CallCudaIsAvailable] |}).
Proof. reflexivity. Qed.

(** The line printed by that run, character by character. *)
Example cpu_run_line :
  let q := String dquote "" in
  stdout (snd (run_ocr cpu_world "scan.png" default_prompt default_model_path
                 initial_state))
  = ["{" ++ q ++ "text" ++ q ++ ": " ++ q ++ "None" ++ q ++ ", "
         ++ q ++ "confidence" ++ q ++ ": 0.85, "
         ++ q ++ "metadata" ++ q ++ ": {"
         ++ q ++ "model" ++ q ++ ": " ++ q ++ "deepseek-ai/DeepSeek-OCR" ++ q ++ ", "
         ++ q ++ "device" ++ q ++ ": " ++ q ++ "cpu" ++ q ++ "}}"].
Proof. reflexivity. Qed.

(** A missing image: [infer] raises, the handler prints the envelope. *)
Example no_image_run :
  let q := String dquote "" in
  let r := run_ocr no_image_world "missing.png" default_prompt default_model_path
             initial_state in
  fst r = Ok 1 /\
  stdout (snd r) = [] /\
  stderr (snd r)
  = ["{" ++ q ++ "error" ++ q ++ ": "
         ++ q ++ "[Errno 2] No such file or directory: 'missing.png'" ++ q ++ ", "
         ++ q ++ "type" ++ q ++ ": " ++ q ++ "FileNotFoundError" ++ q ++ "}"] /\
  grad_enabled (snd r) = true.
Proof. cbv zeta. repeat split. Qed.

(** [str(result)] raising is a failure like any other. *)
Example unprintable_run :
  let r := run_ocr unprintable_world "scan.png" default_prompt default_model_path
             initial_state in
  fst r = Ok 1 /\ stdout (snd r) = [] /\ stderr (snd r) = [dumps (envelope TypeError)].
Proof. cbv zeta. repeat split. Qed.

(** The command line: the last [--prompt] wins, a second positional word
    is an error, and help ends the parse. *)
Example parse_args_examples :
  parse_args [ArgPositional "scan.png"]
  = Parsed {| image_path := "scan.png"; prompt := default_prompt;
              model := "deepseek-ai/DeepSeek-OCR" |} /\
  parse_args [ArgPrompt "a"; ArgPositional "scan.png"; ArgPrompt "b"]
  = Parsed {| image_path := "scan.png"; prompt := "b";
              model := "deepseek-ai/DeepSeek-OCR" |} /\
  parse_args [ArgModel "m"] = ParseError MissingImagePath /\
  parse_args [ArgPositional "a.png"; ArgPositional "b.png"]
  = ParseError (UnrecognizedArguments ["b.png"]) /\
  parse_args [ArgPositional "a.png"; ArgPositional "b.png"; ArgHelp] = ParseHelp.
Proof. repeat split. Qed.

(** ** The output shapes and the return value *)

Lemma str_of_exception_Ok (e : PyExc) (message : string) :
  str_of_exception e = Ok message ->
  str_raises e = None /\ message = exc_message e.
Proof.
  unfold str_of_exception. destruct (str_raises e); intros H; inversion H. auto.
Qed.

(** C1, as stated, fails: when the tokenizer load is interrupted from the
    keyboard, the run prints neither shape and returns nothing, the
    exception leaves [run_ocr]. *)
Lemma interrupted_run_has_no_shape :
  let r := run_ocr interrupted_world "scan.png" default_prompt default_model_path
             initial_state in
  fst r = Raise KeyboardInterrupt /\
  stdout (snd r) = [] /\ stderr (snd r) = [] /\
  ~ (success_shape initial_state r \/ failure_shape initial_state r).
Proof.
  cbv zeta. repeat split; try reflexivity.
  intros [(H & _) | (H & _)]; vm_compute in H; discriminate.
Qed.

(** C1, amended: in every run of [run_ocr] in which whatever the [try]
    body raises is an instance of [Exception] whose [str] returns, exactly
    one of the two shapes is produced: one success object printed to
    standard output together with the value 0, or one error object printed
    to standard error together with the value 1; never both, never
    neither. *)
Theorem run_ocr_exactly_one_shape (w : World) (image_path prompt model_path : string)
    (s : State) :
  failures_are_reportable w image_path prompt model_path s ->
  let r := run_ocr w image_path prompt model_path s in
  (success_shape s r /\ ~ failure_shape s r) \/
  (failure_shape s r /\ ~ success_shape s r).
Proof.
  intros Hrep r. subst r.
  destruct (run_ocr_cases w image_path prompt model_path s)
    as [(result & output & s' & S & R)
       | [(e & s1 & T & E & Hstr & R)
         | [(e & s1 & T & E & R) | (e & e' & s1 & T & E & Hstr & R)]]];
    rewrite R.
  - left. split.
    + destruct (succeeds_output _ _ _ _ _ _ _ _ S) as (O & _ & text & _ & ->).
      unfold success_shape. simpl. split; [reflexivity | ].
      eexists. split; [ | exact O]. unfold success_object. eauto.
    + intros (H & _). discriminate.
  - right. split.
    + destruct (try_body_Raise _ _ _ _ _ _ _ T) as (new & (_ & _ & Er & _) & _).
      unfold failure_shape. simpl. rewrite Er. split; [reflexivity | ].
      exists (envelope e). split; [apply envelope_is_error_object | reflexivity].
    + intros (H & _). discriminate.
  - apply Hrep in T. destruct T as (T & _). congruence.
  - apply Hrep in T. destruct T as (_ & message & T).
    apply str_of_exception_Ok in T. destruct T as (T & _). congruence.
Qed.

Lemma run_ocr_exactly_one_shape_witness :
  let s := initial_state in
  let r := run_ocr no_image_world "missing.png" default_prompt default_model_path s in
  (success_shape s r /\ ~ failure_shape s r) \/
  (failure_shape s r /\ ~ success_shape s r).
Proof.
  apply (run_ocr_exactly_one_shape no_image_world "missing.png" default_prompt
           default_model_path initial_state).
  intros e s1 H. vm_compute in H. inversion H. split; [reflexivity | ].
  eexists. reflexivity.
Defined.

(** C9, as stated, fails: the tokenizer load raises an instance of
    [Exception] whose [__str__] raises a [RuntimeError].  Every failure
    raised in the run is an ordinary exception, and [run_ocr] returns no
    value: [str(e)] of line 66 raises inside the handler, and the
    [RuntimeError] leaves [run_ocr]. *)
Lemma bad_error_run_returns_nothing :
  let r := run_ocr bad_error_world "scan.png" default_prompt default_model_path
             initial_state in
  try_body bad_error_world "scan.png" default_prompt default_model_path initial_state
  = (Raise BadError, snd r) /\
  is_Exception BadError = true /\
  str_of_exception BadError = Raise RuntimeError /\
  is_Exception RuntimeError = true /\
  fst r = Raise RuntimeError /\
  ~ (exists code s', r = (Ok code, s')).
Proof.
  cbv zeta. repeat split. intros (code & s' & H). vm_compute in H. discriminate.
Qed.

(** C9, amended: in every run in which whatever the [try] body raises is
    an instance of [Exception] whose [str] returns, [run_ocr] returns a
    value, and the value is 0 or 1. *)
Theorem run_ocr_returns_0_or_1 (w : World) (image_path prompt model_path : string)
    (s : State) :
  failures_are_reportable w image_path prompt model_path s ->
  exists code s',
    run_ocr w image_path prompt model_path s = (Ok code, s') /\
    (code = 0 \/ code = 1).
Proof.
  intros Hrep.
  destruct (run_ocr_cases w image_path prompt model_path s)
    as [(result & output & s' & _ & R)
       | [(e & s1 & _ & _ & _ & R)
         | [(e & s1 & T & E & _) | (e & e' & s1 & T & E & Hstr & _)]]].
  - exists 0, s'. auto.
  - eexists 1, _. eauto.
  - apply Hrep in T. destruct T as (T & _). congruence.
  - apply Hrep in T. destruct T as (_ & message & T).
    apply str_of_exception_Ok in T. destruct T as (T & _). congruence.
Qed.

Lemma run_ocr_returns_0_or_1_witness :
  exists code s',
    run_ocr unprintable_world "scan.png" default_prompt default_model_path initial_state
    = (Ok code, s') /\
    (code = 0 \/ code = 1).
Proof.
  apply (run_ocr_returns_0_or_1 unprintable_world "scan.png" default_prompt
           default_model_path initial_state).
  intros e s1 H. vm_compute in H. inversion H. split; [reflexivity | ].
  eexists. reflexivity.
Defined.

(** ** The error envelope *)

(** C2, as stated, fails: a [SystemExit] raised while the model is loaded
    is no instance of [Exception]; it leaves [run_ocr] and nothing has been
    written to standard error. *)
Lemma system_exit_escapes :
  let r := run_ocr exiting_world "scan.png" default_prompt default_model_path
             initial_state in
  load_model exiting_world default_model_path initial_state
  = (Raise SystemExit, snd r) /\
  fst r = Raise SystemExit /\
  stderr (snd r) = [].
Proof. cbv zeta. repeat split. Qed.

(** C2, amended: every error raised during load or inference that is an
    instance of [Exception] and whose [str] returns is caught by
    [run_ocr], which prints the envelope for it and returns 1; no such
    error leaves [run_ocr]. *)
Theorem run_ocr_catches_Exception (w : World) (image_path prompt model_path : string)
    (s s1 : State) (e : PyExc) (message : string) :
  load_model w model_path s = (Raise e, s1) \/
  (exists loaded s0,
      load_model w model_path s = (Ok loaded, s0) /\
      run_inference w (fst loaded) (snd loaded) prompt image_path s0 = (Raise e, s1)) ->
  is_Exception e = true ->
  str_of_exception e = Ok message ->
  exists s',
    run_ocr w image_path prompt model_path s = (Ok 1, s') /\
    stderr s' = (stderr s ++ [dumps (envelope e)])%list.
Proof.
  intros Hraise E Hstr. apply str_of_exception_Ok in Hstr. destruct Hstr as (Hstr & _).
  assert (T : try_body w image_path prompt model_path s = (Raise e, s1)).
  { unfold try_body, bind.
    destruct Hraise as [L | (loaded & s0 & L & I)]; rewrite L; [ | rewrite I ]; reflexivity. }
  rewrite run_ocr_unfold, T, E, Hstr. eexists. split; [reflexivity | ].
  destruct (try_body_Raise _ _ _ _ _ _ _ T) as (new & (_ & _ & Er & _) & _).
  simpl. rewrite Er. reflexivity.
Qed.

Lemma run_ocr_catches_Exception_witness :
  exists s',
    run_ocr no_model_world "scan.png" default_prompt "no-such/model" initial_state
    = (Ok 1, s') /\
    stderr s' = (stderr initial_state ++ [dumps (envelope OSError)])%list.
Proof.
  apply (run_ocr_catches_Exception no_model_world "scan.png" default_prompt
           "no-such/model" initial_state
           (snd (load_model no_model_world "no-such/model" initial_state)) OSError
           (exc_message OSError)).
  - left. reflexivity.
  - reflexivity.
  - reflexivity.
Defined.

(** C4, as stated, fails: a [KeyboardInterrupt] during inference is a
    failure of step 5, the run writes no JSON object to standard error and
    returns no exit code. *)
Lemma interrupted_inference_has_no_envelope :
  let r := run_ocr interrupted_inference_world "scan.png" default_prompt
             default_model_path initial_state in
  try_body interrupted_inference_world "scan.png" default_prompt default_model_path
    initial_state = (Raise KeyboardInterrupt, snd r) /\
  fst r <> Ok 1 /\
  stderr (snd r) = [].
Proof. cbv zeta. repeat split. vm_compute. discriminate. Qed.

(** C4, amended: for every failure raised during steps 1-6 that is an
    instance of [Exception] and whose [str] returns a message, [run_ocr]
    writes to standard error the JSON object whose [error] key holds that
    message and whose [type] key holds the class name of the failure, and
    returns 1. *)
Theorem run_ocr_reports_failure (w : World) (image_path prompt model_path : string)
    (s s1 : State) (e : PyExc) (message : string) :
  try_body w image_path prompt model_path s = (Raise e, s1) ->
  is_Exception e = true ->
  str_of_exception e = Ok message ->
  exists s',
    run_ocr w image_path prompt model_path s = (Ok 1, s') /\
    stderr s' =
      (stderr s
       ++ [dumps (JObject [("error", JString message);
                           ("type", JString (exc_class e))])])%list.
Proof.
  intros T E Hstr. apply str_of_exception_Ok in Hstr. destruct Hstr as (Hstr & ->).
  rewrite run_ocr_unfold, T, E, Hstr. eexists. split; [reflexivity | ].
  destruct (try_body_Raise _ _ _ _ _ _ _ T) as (new & (_ & _ & Er & _) & _).
  simpl. rewrite Er. reflexivity.
Qed.

Lemma run_ocr_reports_failure_witness :
  exists s',
    run_ocr no_image_world "missing.png" default_prompt default_model_path initial_state
    = (Ok 1, s') /\
    stderr s' =
      (stderr initial_state
       ++ [dumps (JObject
                    [("error",
                      JString "[Errno 2] No such file or directory: 'missing.png'");
                     ("type", JString (exc_class FileNotFoundError))])])%list.
Proof.
  apply (run_ocr_reports_failure no_image_world "missing.png" default_prompt
           default_model_path initial_state
           (snd (try_body no_image_world "missing.png" default_prompt
                   default_model_path initial_state))
           FileNotFoundError).
  - reflexivity.
  - reflexivity.
  - reflexivity.
Defined.

(** ** The success object *)

(** C3, as stated, fails: on a machine with a GPU the device field is
    ["cuda"], not ["accelerated"]. *)
Lemma gpu_device_is_not_accelerated :
  exists result output s',
    succeeds gpu_world "scan.png" default_prompt default_model_path initial_state
      result output s' /\
    run_ocr gpu_world "scan.png" default_prompt default_model_path initial_state
    = (Ok 0, s') /\
    cuda_is_available gpu_world = true /\
    device_of output = Some (JString "cuda") /\
    device_of output <> Some (JString "accelerated").
Proof.
  eexists _, _, _. split; [ | split; [ | split; [ | split]]].
  - exists (tt, tt). eexists _, _, _. repeat split.
  - reflexivity.
  - reflexivity.
  - reflexivity.
  - vm_compute. discriminate.
Qed.

(** C3, amended: in the success output the metadata device field equals
    ["cuda"] whenever [torch.cuda.is_available()] holds, and ["cpu"]
    otherwise; it is one of the two strings ["cpu"] and ["cuda"]. *)
Theorem run_ocr_device (w : World) (image_path prompt model_path : string)
    (s s' : State) :
  run_ocr w image_path prompt model_path s = (Ok 0, s') ->
  exists result output,
    succeeds w image_path prompt model_path s result output s' /\
    stdout s' = (stdout s ++ [dumps output])%list /\
    device_of output
    = Some (JString (if cuda_is_available w then "cuda" else "cpu")) /\
    (device_of output = Some (JString "cpu") \/
     device_of output = Some (JString "cuda")).
Proof.
  intros R. apply run_ocr_Ok0 in R. destruct R as (result & output & S).
  exists result, output. split; [assumption | ].
  destruct (succeeds_output _ _ _ _ _ _ _ _ S) as (O & _ & text & _ & ->).
  split; [assumption | ]. unfold device_of. simpl.
  split; [reflexivity | ]. destruct (cuda_is_available w); auto.
Qed.

Lemma run_ocr_device_witness :
  let s' := snd (run_ocr gpu_world "scan.png" default_prompt default_model_path
                   initial_state) in
  exists result output,
    succeeds gpu_world "scan.png" default_prompt default_model_path initial_state
      result output s' /\
    stdout s' = (stdout initial_state ++ [dumps output])%list /\
    device_of output
    = Some (JString (if cuda_is_available gpu_world then "cuda" else "cpu")) /\
    (device_of output = Some (JString "cpu") \/
     device_of output = Some (JString "cuda")).
Proof.
  apply (run_ocr_device gpu_world "scan.png" default_prompt default_model_path
           initial_state).
  reflexivity.
Defined.

(** C5: on every successful run the [text] field of the printed object
    is a string, hence not null: the inference result itself when that is
    a string, and its [str] otherwise. *)
Theorem run_ocr_text (w : World) (image_path prompt model_path : string)
    (s s' : State) :
  run_ocr w image_path prompt model_path s = (Ok 0, s') ->
  exists result output text,
    succeeds w image_path prompt model_path s result output s' /\
    stdout s' = (stdout s ++ [dumps output])%list /\
    field "text" output = Some (JString text) /\
    field "text" output <> Some JNull /\
    (if isinstance_str result then result = PyStr text else Py.str result = Ok text).
Proof.
  intros R. apply run_ocr_Ok0 in R. destruct R as (result & output & S).
  destruct (succeeds_output _ _ _ _ _ _ _ _ S) as (O & _ & text & Htext & Hout).
  exists result, output, text. subst output.
  repeat split; try assumption. simpl. discriminate.
Qed.

Lemma run_ocr_text_witness :
  let s' := snd (run_ocr cpu_world "scan.png" default_prompt default_model_path
                   initial_state) in
  exists result output text,
    succeeds cpu_world "scan.png" default_prompt default_model_path initial_state
      result output s' /\
    stdout s' = (stdout initial_state ++ [dumps output])%list /\
    field "text" output = Some (JString text) /\
    field "text" output <> Some JNull /\
    (if isinstance_str result then result = PyStr text else Py.str result = Ok text).
Proof.
  apply (run_ocr_text cpu_world "scan.png" default_prompt default_model_path
           initial_state).
  reflexivity.
Defined.

(** C7: on every successful run, whatever the image, the prompt and the
    model identifier, the [confidence] field of the printed object is the
    constant 0.85 of the source. *)
Theorem run_ocr_confidence (w : World) (image_path prompt model_path : string)
    (s s' : State) :
  run_ocr w image_path prompt model_path s = (Ok 0, s') ->
  exists result output,
    succeeds w image_path prompt model_path s result output s' /\
    stdout s' = (stdout s ++ [dumps output])%list /\
    field "confidence" output = Some (JFloat confidence) /\
    float_repr confidence = "0.85".
Proof.
  intros R. apply run_ocr_Ok0 in R. destruct R as (result & output & S).
  destruct (succeeds_output _ _ _ _ _ _ _ _ S) as (O & _ & text & _ & Hout).
  exists result, output. subst output. repeat split; assumption.
Qed.

Lemma run_ocr_confidence_witness :
  let s' := snd (run_ocr gpu_world "invoice.png" "<image>" "some/other-model"
                   initial_state) in
  exists result output,
    succeeds gpu_world "invoice.png" "<image>" "some/other-model" initial_state
      result output s' /\
    stdout s' = (stdout initial_state ++ [dumps output])%list /\
    field "confidence" output = Some (JFloat confidence) /\
    float_repr confidence = "0.85".
Proof.
  apply (run_ocr_confidence gpu_world "invoice.png" "<image>" "some/other-model"
           initial_state).
  reflexivity.
Defined.

(** ** The inference call *)

Lemma run_ocr_calls_of_try_body (w : World) (image_path prompt model_path : string)
    (s : State) :
  calls (snd (run_ocr w image_path prompt model_path s))
  = calls (snd (try_body w image_path prompt model_path s)).
Proof.
  rewrite run_ocr_unfold.
  destruct (try_body w image_path prompt model_path s) as [[code | e] s1]; simpl;
    [ | destruct (is_Exception e); [destruct (str_raises e) | ]]; reflexivity.
Qed.

(** The calls a run adds to the log: one call of [model.infer] if loading
    went through and the model has an [infer], none otherwise. *)
Lemma run_ocr_calls (w : World) (image_path prompt model_path : string) (s : State) :
  exists new,
    calls (snd (run_ocr w image_path prompt model_path s)) = (calls s ++ new)%list /\
    ((exists loaded s1 infer,
         load_model w model_path s = (Ok loaded, s1) /\
         Model_infer w (snd loaded) = Ok infer) /\
     infer_calls new = [CallInfer false prompt image_path 1024 640]
     \/
     ((exists e s1, load_model w model_path s = (Raise e, s1)) \/
      (exists loaded s1 e,
          load_model w model_path s = (Ok loaded, s1) /\
          Model_infer w (snd loaded) = Raise e)) /\
     infer_calls new = []).
Proof.
  rewrite run_ocr_calls_of_try_body. unfold try_body, bind, print, ret.
  destruct (load_model w model_path s) as [[loaded | e1] s1] eqn:L;
    pose proof (load_model_frame _ _ _ _ _ L) as (a & (_ & _ & _ & Ca) & Na).
  - destruct (run_inference w (fst loaded) (snd loaded) prompt image_path s1)
      as [r s2] eqn:I.
    pose proof (run_inference_frame _ _ _ _ _ _ _ _ I)
      as [(infer & Hinfer & -> & (_ & _ & _ & Ci)) | (e & Hinfer & -> & (_ & _ & _ & Ci))].
    + assert (Hcalls : forall s3 b,
                 calls s3 = (calls s2 ++ b)%list -> infer_calls b = [] ->
                 exists new,
                   calls s3 = (calls s ++ new)%list /\
                   infer_calls new = [CallInfer false prompt image_path 1024 640]).
      { intros s3 b Cb Nb.
        exists ((a ++ [CallInfer false prompt image_path 1024 640]) ++ b)%list.
        rewrite Cb, Ci, Ca, !app_assoc. split; [reflexivity | ].
        rewrite !infer_calls_app, Na, Nb. reflexivity. }
      destruct (infer false (fst loaded) prompt image_path 1024 640) as [result | e2].
      * destruct (build_output w model_path result s2) as [[output | e3] s3] eqn:B;
          pose proof (build_output_frame _ _ _ _ _ _ B) as (b & (_ & _ & _ & Cb) & Nb);
          destruct (Hcalls s3 b Cb Nb) as (new & C & N);
          exists new; (split; [exact C | left; split; [eauto | exact N]]).
      * destruct (Hcalls s2 [] (eq_sym (app_nil_r _)) eq_refl) as (new & C & N).
        exists new. split; [exact C | left; split; [eauto | exact N]].
    + exists a. simpl. rewrite Ci, app_nil_r. split; [exact Ca | ].
      right. split; [right; eauto | exact Na].
  - exists a. split; [exact Ca | ]. right. split; [left; eauto | exact Na].
Qed.

(** C8, as stated, fails: when the model cannot be loaded, the run makes
    no inference call at all. *)
Lemma no_model_no_inference :
  let r := run_ocr no_model_world "scan.png" default_prompt "no-such/model"
             initial_state in
  fst r = Ok 1 /\
  infer_calls (calls (snd r)) = [] /\
  length (infer_calls (calls (snd r))) <> 1%nat.
Proof. cbv zeta. repeat split. vm_compute. discriminate. Qed.

(** C8, amended: every run of [run_ocr] makes at most one inference call:
    exactly one when load, device placement, the switch to evaluation
    mode and the lookup of [model.infer] go through, none when one of them
    raises.  The call is made with gradient tracking off and is given the
    prompt, the image path and the two sizes 1024 and 640. *)
Theorem run_ocr_one_inference (w : World) (image_path prompt model_path : string)
    (s : State) :
  exists new,
    calls (snd (run_ocr w image_path prompt model_path s)) = (calls s ++ new)%list /\
    ((exists loaded s1 infer,
         load_model w model_path s = (Ok loaded, s1) /\
         Model_infer w (snd loaded) = Ok infer) /\
     infer_calls new = [CallInfer false prompt image_path 1024 640]
     \/
     ((exists e s1, load_model w model_path s = (Raise e, s1)) \/
      (exists loaded s1 e,
          load_model w model_path s = (Ok loaded, s1) /\
          Model_infer w (snd loaded) = Raise e)) /\
     infer_calls new = []) /\
    (length (infer_calls new) <= 1)%nat /\
    (forall c, In c (infer_calls new) ->
               c = CallInfer false prompt image_path 1024 640).
Proof.
  destruct (run_ocr_calls w image_path prompt model_path s) as (new & C & N).
  exists new. split; [exact C | split; [exact N | ]].
  destruct N as [(_ & ->) | (_ & ->)]; simpl.
  - split; [lia | ]. intros c [<- | []]. reflexivity.
  - split; [lia | ]. intros c [].
Qed.

(** ** Determinism *)

Lemma advance_nil (s : State) : advance [] [] [] s = s.
Proof. destruct s. unfold advance. simpl. rewrite !app_nil_r. reflexivity. Qed.

Lemma advance_advance (o1 e1 o2 e2 : list string) (n1 n2 : list Call) (s : State) :
  advance o2 e2 n2 (advance o1 e1 n1 s)
  = advance (o1 ++ o2) (e1 ++ e2) (n1 ++ n2) s.
Proof. unfold advance. simpl. rewrite !app_assoc. reflexivity. Qed.

Lemma uniform_ret {A} (a : A) : uniform (ret a).
Proof. exists (Ok a), [], [], []. intros s. rewrite advance_nil. reflexivity. Qed.

Lemma uniform_lift {A} (r : Result A) : uniform (lift r).
Proof. exists r, [], [], []. intros s. rewrite advance_nil. reflexivity. Qed.

Lemma uniform_external {A} (c : Call) (r : Result A) : uniform (external c r).
Proof.
  exists r, [], [], [c]. intros s. unfold external, log, advance.
  rewrite !app_nil_r. reflexivity.
Qed.

Lemma uniform_print (f : Stream) (text : string) : uniform (print f text).
Proof.
  destruct f.
  - exists (Ok tt), [text], [], []. intros s. unfold print, write, advance.
    rewrite !app_nil_r. reflexivity.
  - exists (Ok tt), [], [text], []. intros s. unfold print, write, advance.
    rewrite !app_nil_r. reflexivity.
Qed.

Lemma uniform_bind {A B} (m : M A) (k : A -> M B) :
  uniform m -> (forall a, uniform (k a)) -> uniform (bind m k).
Proof.
  intros (r & o1 & e1 & n1 & Hm) Hk. destruct r as [a | e].
  - destruct (Hk a) as (r' & o2 & e2 & n2 & Hka).
    exists r', (o1 ++ o2)%list, (e1 ++ e2)%list, (n1 ++ n2)%list. intros s.
    unfold bind. rewrite Hm, Hka. apply f_equal, advance_advance.
  - exists (Raise e), o1, e1, n1. intros s. unfold bind. rewrite Hm. reflexivity.
Qed.

Lemma uniform_try_except {A} (body : M A) (handler : PyExc -> M A) :
  uniform body -> (forall e, uniform (handler e)) ->
  uniform (try_except_Exception body handler).
Proof.
  intros (r & o1 & e1 & n1 & Hb) Hh. destruct r as [a | e].
  - exists (Ok a), o1, e1, n1. intros s.
    unfold try_except_Exception. rewrite Hb. reflexivity.
  - destruct (is_Exception e) eqn:E.
    + destruct (Hh e) as (r' & o2 & e2 & n2 & Hhe).
      exists r', (o1 ++ o2)%list, (e1 ++ e2)%list, (n1 ++ n2)%list. intros s.
      unfold try_except_Exception. rewrite Hb, E, Hhe. apply f_equal, advance_advance.
    + exists (Raise e), o1, e1, n1. intros s.
      unfold try_except_Exception. rewrite Hb, E. reflexivity.
Qed.

(** Inference always runs with gradient tracking off, so the mode a run
    starts in has no say in it. *)
Lemma uniform_run_inference (w : World) (tok : Tokenizer w) (mdl : Model w)
    (prompt image_path : string) :
  uniform (run_inference w tok mdl prompt image_path).
Proof.
  destruct (Model_infer w mdl) as [infer | e] eqn:Hinfer.
  - exists (infer false tok prompt image_path 1024 640),
           [], [], [CallInfer false prompt image_path 1024 640].
    intros s. unfold run_inference, no_grad, call_infer, bind, lift, advance.
    rewrite Hinfer. simpl. rewrite !app_nil_r. reflexivity.
  - exists (Raise e), [], [], [].
    intros s. unfold run_inference, no_grad, call_infer, bind, lift, advance.
    rewrite Hinfer. simpl. rewrite !app_nil_r. reflexivity.
Qed.

Lemma uniform_run_ocr (w : World) (image_path prompt model_path : string) :
  uniform (run_ocr w image_path prompt model_path).
Proof.
  unfold run_ocr, try_body, except_body, load_model, build_output.
  apply uniform_try_except; [ | intros e ];
    repeat first
      [ apply uniform_ret
      | apply uniform_lift
      | apply uniform_external
      | apply uniform_print
      | apply uniform_run_inference
      | apply uniform_bind; [ | intros ? ]
      | match goal with
        | |- uniform (if ?b then _ else _) => destruct b
        | |- uniform (match ?v with PyStr _ => _ | _ => _ end) => destruct v
        end ].
Qed.

(** C10: with the machine and the behaviour of the external calls fixed,
    all runs of [run_ocr] on the same image path, prompt and model
    identifier return the same value and print the same text to the same
    stream, whatever state they start from; and the model, device and
    confidence fields of two success objects agree as soon as the model
    identifier and the availability of a GPU do, whatever the prompts,
    the image paths and the rest of the two worlds. *)
Theorem run_ocr_deterministic (w : World) (image_path prompt model_path : string) :
  (exists r out err,
      forall s,
        let run := run_ocr w image_path prompt model_path s in
        fst run = r /\
        stdout (snd run) = (stdout s ++ out)%list /\
        stderr (snd run) = (stderr s ++ err)%list)
  /\
  (forall (w' : World) (image_path' prompt' : string)
          (s s' t t' : State) (result result' : PyVal) (output output' : JSON),
      cuda_is_available w' = cuda_is_available w ->
      succeeds w image_path prompt model_path s result output t ->
      succeeds w' image_path' prompt' model_path s' result' output' t' ->
      field "metadata" output' = field "metadata" output /\
      field "confidence" output' = field "confidence" output /\
      field "metadata" output
      = Some (JObject
                [("model", JString model_path);
                 ("device", JString (if cuda_is_available w then "cuda" else "cpu"))]) /\
      field "confidence" output = Some (JFloat confidence)).
Proof.
  split.
  - destruct (uniform_run_ocr w image_path prompt model_path)
      as (r & out & err & new & H).
    exists r, out, err. intros s run. subst run. rewrite H. simpl. auto.
  - intros w' image_path' prompt' s s' t t' result result' output output' Hcuda S S'.
    destruct (succeeds_output _ _ _ _ _ _ _ _ S) as (_ & _ & text & _ & ->).
    destruct (succeeds_output _ _ _ _ _ _ _ _ S') as (_ & _ & text' & _ & ->).
    simpl. rewrite Hcuda. auto.
Qed.

Lemma run_ocr_deterministic_witness :
  let w := gpu_world in
  let w' := sample_world true (Ok tt) (Ok tt) (Ok PyNone) in
  let output := 
    JObject [("text", JString "Invoice 42");
             ("confidence", JFloat confidence);
             ("metadata", JObject [("model", JString default_model_path);
                                   ("device", JString "cuda")])] in
  let output' := 
    JObject [("text", JString "None");
             ("confidence", JFloat confidence);
             ("metadata", JObject [("model", JString default_model_path);
                                   ("device", JString "cuda")])] in
  field "metadata" output' = field "metadata" output /\
  field "confidence" output' = field "confidence" output /\
  field "metadata" output
  = Some (JObject
            [("model", JString default_model_path);
             ("device", JString (if cuda_is_available w then "cuda" else "cpu"))]) /\
  field "confidence" output = Some (JFloat confidence).
Proof.
  intros w w' output output'.
  apply (proj2 (run_ocr_deterministic w "scan.png" default_prompt default_model_path)
           w' "letter.png" "<image>"
           initial_state initial_state
           (snd (run_ocr w "scan.png" default_prompt default_model_path initial_state))
           (snd (run_ocr w' "letter.png" "<image>" default_model_path initial_state))
           (PyStr "Invoice 42") PyNone output output').
  - reflexivity.
  - exists (tt, tt). eexists _, _, _. repeat split.
  - exists (tt, tt). eexists _, _, _. repeat split.
Defined.

(** ** The default prompt *)

Lemma scan_eq (argv : list Arg) :
  forall seen prompt model,
    scan argv seen prompt model
    = if has_help argv then None
      else Some ((seen ++ positionals argv)%list,
                 last_prompt argv prompt, last_model argv model).
Proof.
  induction argv as [ | a rest IH]; intros seen prompt model; simpl.
  - rewrite app_nil_r. reflexivity.
  - destruct a as [v | v | v | ]; try apply IH; [ | reflexivity].
    rewrite IH, <- app_assoc. reflexivity.
Qed.

Lemma parse_args_eq (argv : list Arg) :
  parse_args argv
  = if has_help argv then ParseHelp
    else match positionals argv with
         | [] => ParseError MissingImagePath
         | [path] =>
             Parsed {| image_path := path;
                       prompt := last_prompt argv default_prompt;
                       model := last_model argv default_model_path |}
         | _ :: extras => ParseError (UnrecognizedArguments extras)
         end.
Proof.
  unfold parse_args. rewrite scan_eq. destruct (has_help argv); reflexivity.
Qed.

Lemma last_model_default (argv : list Arg) :
  (forall v, ~ In (ArgModel v) argv) ->
  forall default, last_model argv default = default.
Proof.
  induction argv as [ | a rest IH]; intros Hno default; simpl; [reflexivity | ].
  assert (Hrest : forall v, ~ In (ArgModel v) rest).
  { intros v Hin. apply (Hno v). right. exact Hin. }
  destruct a as [v | v | v | ]; try (apply IH; exact Hrest).
  exfalso. apply (Hno v). left. reflexivity.
Qed.

Lemma last_prompt_default (argv : list Arg) :
  (forall v, ~ In (ArgPrompt v) argv) ->
  forall default, last_prompt argv default = default.
Proof.
  induction argv as [ | a rest IH]; intros Hno default; simpl; [reflexivity | ].
  assert (Hrest : forall v, ~ In (ArgPrompt v) rest).
  { intros v Hin. apply (Hno v). right. exact Hin. }
  destruct a as [v | v | v | ]; try (apply IH; exact Hrest).
  exfalso. apply (Hno v). left. reflexivity.
Qed.

Lemma bind_ret {A} (m : M A) (s : State) : bind m ret s = m s.
Proof. unfold bind, ret. destruct (m s) as [[a | e] s']; reflexivity. Qed.

(** C6: on a command line with no [--prompt] flag (no help flag, one
    image path), [parse_args] gives the default of line 76 as the prompt,
    verbatim; [main] hands it to [run_ocr], and [run_ocr] to the inference
    call, which is made with that prompt as soon as loading and the lookup
    of [model.infer] go through. *)
Theorem main_default_prompt (w : World) (argv : list Arg) (path : string) (s : State) :
  (forall v, ~ In (ArgPrompt v) argv) ->
  has_help argv = false ->
  positionals argv = [path] ->
  default_prompt
  = "<image>" ++ String "010"%char "<|grounding|>Extract all text from this document." /\
  parse_args argv
  = Parsed {| image_path := path;
              prompt := default_prompt;
              model := last_model argv default_model_path |} /\
  main w argv s
  = run_ocr w path default_prompt (last_model argv default_model_path) s /\
  exists new,
    calls (snd (main w argv s)) = (calls s ++ new)%list /\
    (forall c, In c (infer_calls new) ->
               c = CallInfer false default_prompt path 1024 640) /\
    (forall loaded s1 infer,
        load_model w (last_model argv default_model_path) s = (Ok loaded, s1) ->
        Model_infer w (snd loaded) = Ok infer ->
        infer_calls new = [CallInfer false default_prompt path 1024 640]).
Proof.
  intros Hno Hhelp Hpos.
  assert (P : parse_args argv
              = Parsed {| image_path := path;
                          prompt := default_prompt;
                          model := last_model argv default_model_path |}).
  { rewrite parse_args_eq, Hhelp, Hpos, (last_prompt_default argv Hno). reflexivity. }
  assert (R : main w argv s
              = run_ocr w path default_prompt (last_model argv default_model_path) s).
  { unfold main. rewrite P. simpl. apply bind_ret. }
  split; [reflexivity | split; [exact P | split; [exact R | ]]].
  rewrite R.
  destruct (run_ocr_calls w path default_prompt (last_model argv default_model_path) s)
    as (new & C & N).
  exists new. split; [exact C | split].
  - intros c Hin. destruct N as [(_ & N) | (_ & N)]; rewrite N in Hin.
    + destruct Hin as [<- | []]. reflexivity.
    + destruct Hin.
  - intros loaded s1 infer L Hinfer.
    destruct N as [(_ & N) | ([(e & s2 & L') | (loaded' & s2 & e & L' & Hno') ] & _)].
    + exact N.
    + rewrite L in L'. discriminate L'.
    + rewrite L in L'. inversion L'. subst. rewrite Hinfer in Hno'. discriminate Hno'.
Qed.

Lemma main_default_prompt_witness :
  let argv := [ArgPositional "scan.png"; ArgModel "some/other-model"] in
  default_prompt
  = "<image>" ++ String "010"%char "<|grounding|>Extract all text from this document." /\
  parse_args argv
  = Parsed {| image_path := "scan.png";
              prompt := default_prompt;
              model := last_model argv default_model_path |} /\
  main cpu_world argv initial_state
  = run_ocr cpu_world "scan.png" default_prompt (last_model argv default_model_path)
      initial_state /\
  exists new,
    calls (snd (main cpu_world argv initial_state))
    = (calls initial_state ++ new)%list /\
    (forall c, In c (infer_calls new) ->
               c = CallInfer false default_prompt "scan.png" 1024 640) /\
    (forall loaded s1 infer,
        load_model cpu_world (last_model argv default_model_path) initial_state
        = (Ok loaded, s1) ->
        Model_infer cpu_world (snd loaded) = Ok infer ->
        infer_calls new = [CallInfer false default_prompt "scan.png" 1024 640]).
Proof.
  intros argv.
  apply (main_default_prompt cpu_world argv "scan.png" initial_state).
  - intros v Hin. simpl in Hin. destruct Hin as [H | [H | []]]; discriminate H.
  - reflexivity.
  - reflexivity.
Defined.

(** The run of that command line: the default prompt is in the inference
    call that was made. *)
Example main_default_prompt_run :
  infer_calls
    (calls (snd (main cpu_world [ArgPositional "scan.png"; ArgModel "some/other-model"]
                   initial_state)))
  = [CallInfer false
       ("<image>" ++ String "010"%char
                       "<|grounding|>Extract all text from this document.")
       "scan.png" 1024 640].
Proof. reflexivity. Qed.

(** * Further properties of [run_ocr] and [main] *)

(** ** The order of the external calls *)

Lemma prefix_through {A} (a : list A) (c : A) (b new rest : list A) :
  (new ++ rest = a ++ c :: b)%list ->
  In c new -> ~ In c a ->
  exists tail, new = (a ++ c :: tail)%list.
Proof.
  revert new. induction a as [ | x a IH]; intros new E Hin Hnot.
  - destruct new as [ | y new]; [destruct Hin | ].
    simpl in E. inversion E. subst. exists new. reflexivity.
  - destruct new as [ | y new]; [destruct Hin | ].
    simpl in E. inversion E. subst.
    destruct Hin as [-> | Hin]; [exfalso; apply Hnot; left; reflexivity | ].
    destruct (IH new H1 Hin) as (tail & ->).
    + intros H. apply Hnot. right. exact H.
    + exists tail. reflexivity.
Qed.

(** What the [try] body adds to the log is a beginning of the expected
    calls, and all of them when the body gets through. *)
Lemma try_body_calls (w : World) (image_path prompt model_path : string)
    (s s' : State) (r : Result Z) :
  try_body w image_path prompt model_path s = (r, s') ->
  exists new rest,
    calls s' = (calls s ++ new)%list /\
    expected_calls w image_path prompt model_path = (new ++ rest)%list /\
    (forall code, r = Ok code -> rest = []).
Proof.
  unfold try_body, load_model, run_inference, no_grad, call_infer, build_output,
    expected_calls, load_calls, bind, external, lift, ret, print.
  destruct (AutoTokenizer_from_pretrained w model_path true) as [tok | e]; simpl;
    [destruct (AutoModel_from_pretrained w model_path true bfloat16) as [mdl | e]; simpl;
     [destruct (cuda_is_available w); simpl;
      [destruct (Model_cuda w mdl) as [mdl' | e]; simpl;
       [destruct (Model_eval w mdl') as [mdl'' | e]; simpl;
        [destruct (Model_infer w mdl'') as [infer | e]; simpl;
         [destruct (infer false tok prompt image_path 1024 640)
            as [[t | | [ | ] | [t | e]] | e]; simpl | ] | ] | ]
      | destruct (Model_eval w mdl) as [mdl'' | e]; simpl;
        [destruct (Model_infer w mdl'') as [infer | e]; simpl;
         [destruct (infer false tok prompt image_path 1024 640)
            as [[t | | [ | ] | [t | e]] | e]; simpl | ] | ] ] | ] | ];
    intros H; inversion H; subst; clear H; simpl;
    rewrite <- ?app_assoc; simpl;
    eexists _, _; (split; [reflexivity | split; [reflexivity | ]]);
      intros code Hcode; (reflexivity || discriminate Hcode).
Qed.

Lemma run_ocr_call_order_aux (w : World) (image_path prompt model_path : string)
    (s : State) :
  exists new rest,
    calls (snd (run_ocr w image_path prompt model_path s)) = (calls s ++ new)%list /\
    expected_calls w image_path prompt model_path = (new ++ rest)%list.
Proof.
  rewrite run_ocr_calls_of_try_body.
  destruct (try_body w image_path prompt model_path s) as [r s1] eqn:T.
  destruct (try_body_calls _ _ _ _ _ _ _ T) as (new & rest & C & E & _).
  exists new, rest. split; assumption.
Qed.

(** X1: the external calls of a run are made in one fixed order (load the
    tokenizer, load the model, ask for a GPU, move the model there if
    there is one, switch to evaluation mode, infer, ask for a GPU again);
    a run makes a beginning of that sequence, and the whole of it when
    it returns 0, so no call is ever repeated. *)
Theorem run_ocr_call_order (w : World) (image_path prompt model_path : string)
    (s : State) :
  exists new rest,
    calls (snd (run_ocr w image_path prompt model_path s)) = (calls s ++ new)%list /\
    expected_calls w image_path prompt model_path = (new ++ rest)%list /\
    (fst (run_ocr w image_path prompt model_path s) = Ok 0 -> rest = []).
Proof.
  rewrite run_ocr_calls_of_try_body, run_ocr_unfold.
  destruct (try_body w image_path prompt model_path s) as [r s1] eqn:T.
  destruct (try_body_calls _ _ _ _ _ _ _ T) as (new & rest & C & E & Hok).
  exists new, rest. split; [exact C | split; [exact E | ]].
  destruct r as [code | e]; simpl.
  - intros _. eapply Hok. reflexivity.
  - destruct (is_Exception e); [destruct (str_raises e) | ]; discriminate.
Qed.

(** X2: [model.infer] is called only on a prepared model: whenever a run
    makes an inference call, the calls before it are exactly the two loads
    with [trust_remote_code=True] (the model in [bfloat16]), the
    availability query, the move to the GPU if there is one, and the
    switch to evaluation mode. *)
Theorem run_ocr_infers_on_prepared_model (w : World)
    (image_path prompt model_path : string) (s : State) (new : list Call) :
  calls (snd (run_ocr w image_path prompt model_path s)) = (calls s ++ new)%list ->
  infer_calls new <> [] ->
  exists tail,
    new = (load_calls w model_path
           ++ CallInfer false prompt image_path 1024 640 :: tail)%list.
Proof.
  intros C Hinfer.
  destruct (run_ocr_call_order_aux w image_path prompt model_path s)
    as (new' & rest & C' & E).
  rewrite C in C'. apply app_inv_head in C'. subst new'.
  unfold expected_calls in E. symmetry in E.
  apply (prefix_through _ _ _ _ _ E).
  - destruct (infer_calls new) as [ | c l] eqn:N; [congruence | ].
    assert (Hc : In c (infer_calls new)) by (rewrite N; left; reflexivity).
    unfold infer_calls in Hc. apply filter_In in Hc. destruct Hc as (Hin & Hc).
    assert (Hexp : In c (new ++ rest)%list) by (apply in_or_app; left; exact Hin).
    rewrite E in Hexp. unfold load_calls in Hexp.
    destruct c; try discriminate Hc.
    destruct (cuda_is_available w); simpl in Hexp;
      repeat (destruct Hexp as [Hexp | Hexp]; try discriminate Hexp);
      try contradiction; inversion Hexp; subst; exact Hin.
  - unfold load_calls. destruct (cuda_is_available w); simpl;
      intros H; repeat (destruct H as [H | H]; try discriminate H); contradiction.
Qed.

Lemma run_ocr_infers_on_prepared_model_witness :
  exists tail,
    [CallTokenizer default_model_path true;
     CallModel default_model_path true bfloat16;
     CallCudaIsAvailable; CallCuda; CallEval;
     CallInfer false default_prompt "scan.png" 1024 640]
    = (load_calls interrupted_inference_world default_model_path
       ++ CallInfer false default_prompt "scan.png" 1024 640 :: tail)%list.
Proof.
  apply (run_ocr_infers_on_prepared_model interrupted_inference_world "scan.png"
           default_prompt default_model_path initial_state).
  - reflexivity.
  - vm_compute. discriminate.
Defined.

(** X3: on a machine without a GPU, [model.cuda()] is never called,
    however the run ends. *)
Theorem run_ocr_no_gpu_no_move (w : World) (image_path prompt model_path : string)
    (s : State) (new : list Call) :
  cuda_is_available w = false ->
  calls (snd (run_ocr w image_path prompt model_path s)) = (calls s ++ new)%list ->
  ~ In CallCuda new.
Proof.
  intros Hcpu C Hin.
  destruct (run_ocr_call_order_aux w image_path prompt model_path s)
    as (new' & rest & C' & E).
  rewrite C in C'. apply app_inv_head in C'. subst new'.
  assert (Hexp : In CallCuda (new ++ rest)%list) by (apply in_or_app; left; exact Hin).
  rewrite <- E in Hexp. unfold expected_calls, load_calls in Hexp.
  rewrite Hcpu in Hexp. simpl in Hexp.
  repeat (destruct Hexp as [Hexp | Hexp]; try discriminate Hexp). exact Hexp.
Qed.

Lemma run_ocr_no_gpu_no_move_witness :
  ~ In CallCuda
      (calls (snd (run_ocr cpu_world "scan.png" default_prompt default_model_path
                     initial_state))).
Proof.
  apply (run_ocr_no_gpu_no_move cpu_world "scan.png" default_prompt default_model_path
           initial_state).
  - reflexivity.
  - reflexivity.
Defined.

(** ** The gradient mode *)

(** X4: [run_ocr] leaves torch's gradient mode as it found it, whether it
    returns 0, returns 1, or an exception leaves it: the [with] block
    restores the mode also when [model.infer] raises. *)
Theorem run_ocr_restores_grad (w : World) (image_path prompt model_path : string)
    (s : State) :
  grad_enabled (snd (run_ocr w image_path prompt model_path s)) = grad_enabled s.
Proof.
  destruct (run_ocr_cases w image_path prompt model_path s)
    as [(result & output & s' & S & R)
       | [(e & s1 & T & E & Hstr & R)
         | [(e & s1 & T & E & R) | (e & e' & s1 & T & E & Hstr & R)]]];
    rewrite R; simpl.
  - destruct (succeeds_frame _ _ _ _ _ _ _ _ S) as (s3 & new & -> & (G & _) & _).
    exact G.
  - destruct (try_body_Raise _ _ _ _ _ _ _ T) as (new & (G & _) & _). exact G.
  - destruct (try_body_Raise _ _ _ _ _ _ _ T) as (new & (G & _) & _). exact G.
  - destruct (try_body_Raise _ _ _ _ _ _ _ T) as (new & (G & _) & _). exact G.
Qed.

(** ** Exceptions that leave [run_ocr] *)

(** X5: when an exception leaves [run_ocr], the run has printed nothing,
    on either stream.  The exception is one that the [try] body raised and
    that is no instance of [Exception], or one that [str(e)] raised in the
    handler, for an instance [e] of [Exception] that the body raised. *)
Theorem run_ocr_escape (w : World) (image_path prompt model_path : string)
    (s s' : State) (e : PyExc) :
  run_ocr w image_path prompt model_path s = (Raise e, s') ->
  stdout s' = stdout s /\
  stderr s' = stderr s /\
  (is_Exception e = false /\
   try_body w image_path prompt model_path s = (Raise e, s')
   \/
   exists e0,
     try_body w image_path prompt model_path s = (Raise e0, s') /\
     is_Exception e0 = true /\
     str_of_exception e0 = Raise e).
Proof.
  intros R.
  destruct (run_ocr_cases w image_path prompt model_path s)
    as [(result & output & t & S & R')
       | [(e0 & s1 & T & E & Hstr & R')
         | [(e0 & s1 & T & E & R') | (e0 & e' & s1 & T & E & Hstr & R')]]];
    rewrite R' in R; try discriminate R; inversion R; subst;
    destruct (try_body_Raise _ _ _ _ _ _ _ T) as (new & (_ & O & Er & _) & _);
    (split; [exact O | split; [exact Er | ]]).
  - left. auto.
  - right. exists e0. unfold str_of_exception. rewrite Hstr. auto.
Qed.

Lemma run_ocr_escape_witness :
  let s' := snd (run_ocr bad_error_world "scan.png" default_prompt default_model_path
                   initial_state) in
  stdout s' = stdout initial_state /\
  stderr s' = stderr initial_state /\
  (is_Exception RuntimeError = false /\
   try_body bad_error_world "scan.png" default_prompt default_model_path initial_state
   = (Raise RuntimeError, s')
   \/
   exists e0,
     try_body bad_error_world "scan.png" default_prompt default_model_path
       initial_state = (Raise e0, s') /\
     is_Exception e0 = true /\
     str_of_exception e0 = Raise RuntimeError).
Proof.
  apply (run_ocr_escape bad_error_world "scan.png" default_prompt default_model_path
           initial_state).
  reflexivity.
Defined.

(** X16: an instance of [Exception] whose [str] raises is caught and then
    lost: when the [try] body raises [e] and [str(e)] raises [e'], it is
    [e'] that leaves [run_ocr]; no envelope is written and no value
    returned. *)
Theorem run_ocr_handler_failure (w : World) (image_path prompt model_path : string)
    (s s1 : State) (e e' : PyExc) :
  try_body w image_path prompt model_path s = (Raise e, s1) ->
  is_Exception e = true ->
  str_of_exception e = Raise e' ->
  run_ocr w image_path prompt model_path s = (Raise e', s1) /\
  stdout s1 = stdout s /\
  stderr s1 = stderr s.
Proof.
  intros T E Hstr. rewrite run_ocr_unfold, T, E.
  unfold str_of_exception in Hstr.
  destruct (str_raises e) as [e'' | ]; inversion Hstr; subst.
  destruct (try_body_Raise _ _ _ _ _ _ _ T) as (new & (_ & O & Er & _) & _).
  auto.
Qed.

Lemma run_ocr_handler_failure_witness :
  let s1 := snd (try_body bad_error_world "scan.png" default_prompt default_model_path
                   initial_state) in
  run_ocr bad_error_world "scan.png" default_prompt default_model_path initial_state
  = (Raise RuntimeError, s1) /\
  stdout s1 = stdout initial_state /\
  stderr s1 = stderr initial_state.
Proof.
  apply (run_ocr_handler_failure bad_error_world "scan.png" default_prompt
           default_model_path initial_state
           (snd (try_body bad_error_world "scan.png" default_prompt default_model_path
                   initial_state))
           BadError RuntimeError).
  - reflexivity.
  - reflexivity.
  - reflexivity.
Defined.

(** ** When a run succeeds, and when it does not *)

Lemma load_model_Ok (w : World) (model_path : string) (s s1 : State)
    (loaded : Tokenizer w * Model w) :
  load_model w model_path s = (Ok loaded, s1) ->
  s1 = advance [] [] (load_calls w model_path) s.
Proof.
  unfold load_model, load_calls, bind, external, ret.
  destruct (AutoTokenizer_from_pretrained w model_path true) as [tok | e];
    [ | discriminate].
  destruct (AutoModel_from_pretrained w model_path true bfloat16) as [mdl | e];
    [ | discriminate].
  destruct (cuda_is_available w);
    [destruct (Model_cuda w mdl) as [mdl' | e]; [ | discriminate];
     destruct (Model_eval w mdl') as [mdl'' | e]; [ | discriminate]
    | destruct (Model_eval w mdl) as [mdl'' | e]; [ | discriminate] ];
    intros H; inversion H; subst; clear H;
    unfold advance, log; simpl; rewrite <- ?app_assoc, ?app_nil_r; reflexivity.
Qed.

Lemma run_inference_eq (w : World) (tok : Tokenizer w) (mdl : Model w)
    (prompt image_path : string) (s : State)
    (infer : bool -> Tokenizer w -> string -> string -> Z -> Z -> Result PyVal) :
  Model_infer w mdl = Ok infer ->
  run_inference w tok mdl prompt image_path s
  = (infer false tok prompt image_path 1024 640,
     advance [] [] [CallInfer false prompt image_path 1024 640] s).
Proof.
  intros Hinfer. unfold run_inference, no_grad, call_infer, bind, lift, advance.
  rewrite Hinfer. simpl. rewrite !app_nil_r. reflexivity.
Qed.

Lemma run_inference_no_infer (w : World) (tok : Tokenizer w) (mdl : Model w)
    (prompt image_path : string) (s : State) (e : PyExc) :
  Model_infer w mdl = Raise e ->
  run_inference w tok mdl prompt image_path s = (Raise e, s).
Proof.
  intros Hinfer. unfold run_inference, no_grad, call_infer, bind, lift.
  rewrite Hinfer. destruct s. reflexivity.
Qed.

Lemma build_output_eq (w : World) (model_path : string) (result : PyVal)
    (text : string) (s : State) :
  Py.str result = Ok text ->
  build_output w model_path result s
  = (Ok (JObject
           [("text", JString text);
            ("confidence", JFloat confidence);
            ("metadata",
             JObject [("model", JString model_path);
                      ("device",
                       JString (if cuda_is_available w then "cuda" else "cpu"))])]),
     advance [] [] [CallCudaIsAvailable] s).
Proof.
  intros Hstr. unfold build_output, bind, external, lift, ret.
  destruct result as [t | | [ | ] | [t | e]]; simpl in *;
    inversion Hstr; subst;
    unfold advance, log; simpl; rewrite !app_nil_r; reflexivity.
Qed.

Lemma build_output_raises (w : World) (model_path : string) (e : PyExc) (s : State) :
  build_output w model_path (PyObject (Raise e)) s = (Raise e, s).
Proof. reflexivity. Qed.

Lemma write_advance (f : Stream) (text : string) (s : State) :
  write f text s
  = match f with
    | Stdout => advance [text] [] [] s
    | Stderr => advance [] [text] [] s
    end.
Proof. destruct f; unfold write, advance; rewrite !app_nil_r; reflexivity. Qed.

(** X6: a run succeeds as soon as loading goes through, the model has an
    [infer], the call of it returns, and the result is a string or has a
    [str]: it returns 0, prints the object with that text, the model path,
    the device and 0.85 to standard output, prints nothing to standard
    error and has made exactly the expected calls. *)
Theorem run_ocr_succeeds (w : World) (image_path prompt model_path : string)
    (s s1 : State) (loaded : Tokenizer w * Model w)
    (infer : bool -> Tokenizer w -> string -> string -> Z -> Z -> Result PyVal)
    (result : PyVal) (text : string) :
  load_model w model_path s = (Ok loaded, s1) ->
  Model_infer w (snd loaded) = Ok infer ->
  infer false (fst loaded) prompt image_path 1024 640 = Ok result ->
  Py.str result = Ok text ->
  run_ocr w image_path prompt model_path s
  = (Ok 0,
     advance
       [dumps (JObject
                 [("text", JString text);
                  ("confidence", JFloat confidence);
                  ("metadata",
                   JObject [("model", JString model_path);
                            ("device",
                             JString (if cuda_is_available w then "cuda" else "cpu"))])])]
       []
       (expected_calls w image_path prompt model_path)
       s).
Proof.
  intros L Hinfer I Hstr.
  rewrite run_ocr_unfold. unfold try_body, bind, print, ret.
  rewrite L, (run_inference_eq _ _ _ _ _ _ _ Hinfer), I,
    (build_output_eq _ _ _ _ _ Hstr).
  apply load_model_Ok in L. subst s1.
  rewrite (write_advance Stdout), !advance_advance. cbn [app].
  unfold expected_calls. rewrite ?app_nil_r, <- ?app_assoc. reflexivity.
Qed.

Lemma run_ocr_succeeds_witness :
  run_ocr cpu_world "scan.png" default_prompt default_model_path initial_state
  = (Ok 0,
     advance
       [dumps (JObject
                 [("text", JString "None");
                  ("confidence", JFloat confidence);
                  ("metadata",
                   JObject [("model", JString default_model_path);
                            ("device",
                             JString (if cuda_is_available cpu_world
                                      then "cuda" else "cpu"))])])]
       []
       (expected_calls cpu_world "scan.png" default_prompt default_model_path)
       initial_state).
Proof.
  apply (run_ocr_succeeds cpu_world "scan.png" default_prompt default_model_path
           initial_state
           (snd (load_model cpu_world default_model_path initial_state))
           (tt, tt) (fun _ _ _ _ _ _ => Ok PyNone) PyNone "None").
  - reflexivity.
  - reflexivity.
  - reflexivity.
  - reflexivity.
Defined.

(** X7: a result that cannot be turned into a string fails the run
    although inference went through: when [str(result)] raises an instance
    of [Exception] whose own [str] returns, the run returns 1 and prints
    the envelope of that exception to standard error and nothing to
    standard output, after one inference call and no second availability
    query. *)
Theorem run_ocr_str_failure (w : World) (image_path prompt model_path : string)
    (s s1 : State) (loaded : Tokenizer w * Model w)
    (infer : bool -> Tokenizer w -> string -> string -> Z -> Z -> Result PyVal)
    (e : PyExc) (message : string) :
  load_model w model_path s = (Ok loaded, s1) ->
  Model_infer w (snd loaded) = Ok infer ->
  infer false (fst loaded) prompt image_path 1024 640 = Ok (PyObject (Raise e)) ->
  is_Exception e = true ->
  str_of_exception e = Ok message ->
  run_ocr w image_path prompt model_path s
  = (Ok 1,
     advance []
       [dumps (JObject [("error", JString message); ("type", JString (exc_class e))])]
       (load_calls w model_path ++ [CallInfer false prompt image_path 1024 640])
       s).
Proof.
  intros L Hinfer I E Hstr.
  apply str_of_exception_Ok in Hstr. destruct Hstr as (Hstr & ->).
  rewrite run_ocr_unfold. unfold try_body, bind, print, ret.
  rewrite L, (run_inference_eq _ _ _ _ _ _ _ Hinfer), I, build_output_raises, E, Hstr.
  apply load_model_Ok in L. subst s1.
  rewrite (write_advance Stderr), !advance_advance. cbn [app].
  rewrite ?app_nil_r. reflexivity.
Qed.

Lemma run_ocr_str_failure_witness :
  run_ocr unprintable_world "scan.png" default_prompt default_model_path initial_state
  = (Ok 1,
     advance []
       [dumps (JObject [("error", JString "__str__ returned non-string (type bytes)");
                        ("type", JString (exc_class TypeError))])]
       (load_calls unprintable_world default_model_path
        ++ [CallInfer false default_prompt "scan.png" 1024 640])
       initial_state).
Proof.
  apply (run_ocr_str_failure unprintable_world "scan.png" default_prompt
           default_model_path initial_state
           (snd (load_model unprintable_world default_model_path initial_state))
           (tt, tt) (fun _ _ _ _ _ _ => Ok (PyObject (Raise TypeError))) TypeError).
  - reflexivity.
  - reflexivity.
  - reflexivity.
  - reflexivity.
  - reflexivity.
Defined.

(** X8: a failure stops the run at once.  When the tokenizer load raises
    an instance of [Exception] whose [str] returns, no other external call
    is made (the model is not loaded, the GPU is not asked for), the
    envelope of that exception goes to standard error and the run
    returns 1. *)
Theorem run_ocr_tokenizer_failure (w : World) (image_path prompt model_path : string)
    (s : State) (e : PyExc) (message : string) :
  AutoTokenizer_from_pretrained w model_path true = Raise e ->
  is_Exception e = true ->
  str_of_exception e = Ok message ->
  run_ocr w image_path prompt model_path s
  = (Ok 1,
     advance []
       [dumps (JObject [("error", JString message); ("type", JString (exc_class e))])]
       [CallTokenizer model_path true] s).
Proof.
  intros L E Hstr.
  apply str_of_exception_Ok in Hstr. destruct Hstr as (Hstr & ->).
  rewrite run_ocr_unfold. unfold try_body, load_model, bind, external.
  rewrite L, E, Hstr, (write_advance Stderr).
  unfold advance, log. simpl. rewrite !app_nil_r. reflexivity.
Qed.

Lemma run_ocr_tokenizer_failure_witness :
  run_ocr no_tokenizer_world "scan.png" default_prompt "no-such/model" initial_state
  = (Ok 1,
     advance []
       [dumps (JObject [("error", JString (exc_message OSError));
                        ("type", JString (exc_class OSError))])]
       [CallTokenizer "no-such/model" true]
       initial_state).
Proof.
  apply (run_ocr_tokenizer_failure no_tokenizer_world "scan.png" default_prompt
           "no-such/model" initial_state OSError).
  - reflexivity.
  - reflexivity.
  - reflexivity.
Defined.

(** X15: when loading goes through and the call of [model.infer] raises
    an instance of [Exception] whose [str] returns (a missing image, say),
    the run returns 1 and prints the envelope of that exception to
    standard error; it has made the calls up to the inference call and no
    other, and the gradient mode is back to what it was. *)
Theorem run_ocr_infer_failure (w : World) (image_path prompt model_path : string)
    (s s1 : State) (loaded : Tokenizer w * Model w)
    (infer : bool -> Tokenizer w -> string -> string -> Z -> Z -> Result PyVal)
    (e : PyExc) (message : string) :
  load_model w model_path s = (Ok loaded, s1) ->
  Model_infer w (snd loaded) = Ok infer ->
  infer false (fst loaded) prompt image_path 1024 640 = Raise e ->
  is_Exception e = true ->
  str_of_exception e = Ok message ->
  run_ocr w image_path prompt model_path s
  = (Ok 1,
     advance []
       [dumps (JObject [("error", JString message); ("type", JString (exc_class e))])]
       (load_calls w model_path ++ [CallInfer false prompt image_path 1024 640])
       s).
Proof.
  intros L Hinfer I E Hstr.
  apply str_of_exception_Ok in Hstr. destruct Hstr as (Hstr & ->).
  rewrite run_ocr_unfold. unfold try_body, bind, print, ret.
  rewrite L, (run_inference_eq _ _ _ _ _ _ _ Hinfer), I, E, Hstr.
  apply load_model_Ok in L. subst s1.
  rewrite (write_advance Stderr), !advance_advance. cbn [app].
  rewrite ?app_nil_r. reflexivity.
Qed.

Lemma run_ocr_infer_failure_witness :
  run_ocr no_image_world "missing.png" default_prompt default_model_path initial_state
  = (Ok 1,
     advance []
       [dumps (JObject
                 [("error", JString "[Errno 2] No such file or directory: 'missing.png'");
                  ("type", JString (exc_class FileNotFoundError))])]
       (load_calls no_image_world default_model_path
        ++ [CallInfer false default_prompt "missing.png" 1024 640])
       initial_state).
Proof.
  apply (run_ocr_infer_failure no_image_world "missing.png" default_prompt
           default_model_path initial_state
           (snd (load_model no_image_world default_model_path initial_state))
           (tt, tt) (fun _ _ _ _ _ _ => Raise FileNotFoundError) FileNotFoundError).
  - reflexivity.
  - reflexivity.
  - reflexivity.
  - reflexivity.
  - reflexivity.
Defined.

(** X17: a model without [infer] fails the run before any inference call:
    when loading goes through and the lookup of [model.infer] raises an
    instance of [Exception] whose [str] returns (the [AttributeError] of
    another model class), the run returns 1 with the envelope of that
    exception and the log holds the calls of loading only. *)
Theorem run_ocr_no_infer (w : World) (image_path prompt model_path : string)
    (s s1 : State) (loaded : Tokenizer w * Model w) (e : PyExc) (message : string) :
  load_model w model_path s = (Ok loaded, s1) ->
  Model_infer w (snd loaded) = Raise e ->
  is_Exception e = true ->
  str_of_exception e = Ok message ->
  run_ocr w image_path prompt model_path s
  = (Ok 1,
     advance []
       [dumps (JObject [("error", JString message); ("type", JString (exc_class e))])]
       (load_calls w model_path)
       s).
Proof.
  intros L Hinfer E Hstr.
  apply str_of_exception_Ok in Hstr. destruct Hstr as (Hstr & ->).
  rewrite run_ocr_unfold. unfold try_body, bind, print, ret.
  rewrite L, (run_inference_no_infer _ _ _ _ _ _ _ Hinfer), E, Hstr.
  apply load_model_Ok in L. subst s1.
  rewrite (write_advance Stderr), !advance_advance. cbn [app].
  rewrite ?app_nil_r. reflexivity.
Qed.

Lemma run_ocr_no_infer_witness :
  run_ocr no_infer_world "scan.png" default_prompt "bert-base-uncased" initial_state
  = (Ok 1,
     advance []
       [dumps (JObject
                 [("error", JString "'BertModel' object has no attribute 'infer'");
                  ("type", JString (exc_class AttributeError))])]
       (load_calls no_infer_world "bert-base-uncased")
       initial_state).
Proof.
  apply (run_ocr_no_infer no_infer_world "scan.png" default_prompt "bert-base-uncased"
           initial_state
           (snd (load_model no_infer_world "bert-base-uncased" initial_state))
           (tt, tt) AttributeError).
  - reflexivity.
  - reflexivity.
  - reflexivity.
  - reflexivity.
Defined.

(** ** The command line *)

(** X9: a command line that asks for no help and has no image path, or
    more than one positional word, ends the process with status 2:
    [run_ocr] is not called, nothing goes to standard output, and what goes
    to standard error is the usage text of [argparse], not a JSON
    object. *)
Theorem main_rejects_command_line (w : World) (argv : list Arg) (s : State) :
  has_help argv = false ->
  length (positionals argv) <> 1%nat ->
  main w argv s
  = (Ok 2,
     write Stderr
       (argparse_error w
          match positionals argv with
          | [] => MissingImagePath
          | _ :: extras => UnrecognizedArguments extras
          end)
       s).
Proof.
  intros Hhelp Hlen. unfold main. rewrite parse_args_eq, Hhelp.
  destruct (positionals argv) as [ | path [ | extra extras]]; simpl in *;
    [reflexivity | congruence | reflexivity].
Qed.

Lemma main_rejects_command_line_witness :
  let argv := [ArgPrompt "<image>"; ArgModel "some/other-model"] in
  main gpu_world argv initial_state
  = (Ok 2,
     write Stderr
       (argparse_error gpu_world
          match positionals argv with
          | [] => MissingImagePath
          | _ :: extras => UnrecognizedArguments extras
          end)
       initial_state).
Proof.
  intros argv.
  apply (main_rejects_command_line gpu_world argv initial_state).
  - reflexivity.
  - simpl. discriminate.
Defined.

(** X10: a command line with [-h] or [--help] anywhere ends the process
    with status 0 without running anything: the help text goes to standard
    output, and no model is loaded even when an image path is given. *)
Theorem main_help (w : World) (argv : list Arg) (s : State) :
  has_help argv = true ->
  main w argv s = (Ok 0, write Stdout (argparse_help w) s).
Proof.
  intros Hhelp. unfold main. rewrite parse_args_eq, Hhelp. reflexivity.
Qed.

Lemma main_help_witness :
  main gpu_world [ArgPositional "scan.png"; ArgHelp] initial_state
  = (Ok 0, write Stdout (argparse_help gpu_world) initial_state).
Proof.
  apply (main_help gpu_world [ArgPositional "scan.png"; ArgHelp] initial_state).
  reflexivity.
Defined.

(** X11: on a command line with exactly one positional word and no help
    flag, [main] is [run_ocr] on that word as the image path, with the
    value of the last [--prompt] and of the last [--model] given, or the
    defaults of lines 76 and 78; the exit status is the value [run_ocr]
    returns. *)
Theorem main_runs_run_ocr (w : World) (argv : list Arg) (path : string) (s : State) :
  has_help argv = false ->
  positionals argv = [path] ->
  main w argv s
  = run_ocr w path (last_prompt argv default_prompt)
      (last_model argv default_model_path) s.
Proof.
  intros Hhelp Hpos. unfold main. rewrite parse_args_eq, Hhelp, Hpos. simpl.
  apply bind_ret.
Qed.

Lemma main_runs_run_ocr_witness :
  main cpu_world
    [ArgPrompt "first"; ArgPositional "scan.png"; ArgPrompt "second"] initial_state
  = run_ocr cpu_world "scan.png" "second" "deepseek-ai/DeepSeek-OCR" initial_state.
Proof.
  apply (main_runs_run_ocr cpu_world
           [ArgPrompt "first"; ArgPositional "scan.png"; ArgPrompt "second"]
           "scan.png" initial_state).
  - reflexivity.
  - reflexivity.
Defined.

(** X12: when the command line has no [--model] flag, whatever [main]
    loads, it loads from ["deepseek-ai/DeepSeek-OCR"], with
    [trust_remote_code=True], and the model in [bfloat16]. *)
Theorem main_default_model (w : World) (argv : list Arg) (s : State) :
  (forall v, ~ In (ArgModel v) argv) ->
  exists new,
    calls (snd (main w argv s)) = (calls s ++ new)%list /\
    (forall path trust,
        In (CallTokenizer path trust) new ->
        path = "deepseek-ai/DeepSeek-OCR" /\ trust = true) /\
    (forall path trust dtype,
        In (CallModel path trust dtype) new ->
        path = "deepseek-ai/DeepSeek-OCR" /\ trust = true /\ dtype = bfloat16).
Proof.
  intros Hno. unfold main. rewrite parse_args_eq.
  destruct (has_help argv);
    [exists []; simpl; rewrite app_nil_r; split; [reflexivity | split; intros; contradiction] | ].
  destruct (positionals argv) as [ | path [ | extra extras]];
    try (exists []; simpl; rewrite app_nil_r;
         split; [reflexivity | split; intros; contradiction]).
  simpl. rewrite bind_ret, (last_model_default argv Hno).
  destruct (run_ocr_call_order_aux w path (last_prompt argv default_prompt)
              default_model_path s) as (new & rest & C & E).
  exists new. split; [exact C | ].
  assert (Hexp : forall c, In c new ->
                           In c (expected_calls w path (last_prompt argv default_prompt)
                                   default_model_path)).
  { intros c Hin. rewrite E. apply in_or_app. left. exact Hin. }
  unfold expected_calls, load_calls in Hexp.
  split.
  - intros p t Hin. apply Hexp in Hin.
    destruct (cuda_is_available w); simpl in Hin;
      repeat (destruct Hin as [Hin | Hin]; try discriminate Hin);
      try contradiction; inversion Hin; auto.
  - intros p t d Hin. apply Hexp in Hin.
    destruct (cuda_is_available w); simpl in Hin;
      repeat (destruct Hin as [Hin | Hin]; try discriminate Hin);
      try contradiction; inversion Hin; auto.
Qed.

Lemma main_default_model_witness :
  let argv := [ArgPositional "scan.png"; ArgPrompt "<image>"] in
  exists new,
    calls (snd (main gpu_world argv initial_state))
    = (calls initial_state ++ new)%list /\
    (forall path trust,
        In (CallTokenizer path trust) new ->
        path = "deepseek-ai/DeepSeek-OCR" /\ trust = true) /\
    (forall path trust dtype,
        In (CallModel path trust dtype) new ->
        path = "deepseek-ai/DeepSeek-OCR" /\ trust = true /\ dtype = bfloat16).
Proof.
  intros argv.
  apply (main_default_model gpu_world argv initial_state).
  intros v Hin. simpl in Hin. destruct Hin as [H | [H | []]]; discriminate H.
Defined.

(** X13: the exit status of [main] is 0, 1 or 2.  Status 1 means that
    [run_ocr] ran and failed: one error envelope was added to standard
    error and nothing to standard output.  Status 2 means that the command
    line was rejected: no external call was made and nothing went to
    standard output. *)
Theorem main_exit_status (w : World) (argv : list Arg) (s s' : State) (code : Z) :
  main w argv s = (Ok code, s') ->
  (code = 0 \/ code = 1 \/ code = 2) /\
  (code = 1 ->
   exists e, is_Exception e = true /\
             stderr s' = (stderr s ++ [dumps (envelope e)])%list /\
             stdout s' = stdout s) /\
  (code = 2 -> calls s' = calls s /\ stdout s' = stdout s).
Proof.
  unfold main. destruct (parse_args argv) as [args | | err].
  - rewrite bind_ret. intros R.
    destruct (run_ocr_cases w (image_path args) (prompt args) (model args) s)
      as [(result & output & t & S & R')
         | [(e & s1 & T & E & Hstr & R')
           | [(e & s1 & T & E & R') | (e & e' & s1 & T & E & Hstr & R')]]];
      rewrite R' in R; inversion R; subst; clear R.
    + split; [auto | split; discriminate].
    + split; [auto | split; [ | discriminate]].
      intros _. exists e.
      destruct (try_body_Raise _ _ _ _ _ _ _ T) as (new & (_ & O & Er & _) & _).
      simpl. rewrite O, Er. auto.
  - intros R. inversion R. subst. split; [auto | split; discriminate].
  - intros R. inversion R. subst. split; [auto | split; [discriminate | ]].
    intros _. simpl. auto.
Qed.

Lemma main_exit_status_witness :
  let s' := snd (main no_image_world [ArgPositional "missing.png"] initial_state) in
  (1 = 0 \/ 1 = 1 \/ 1 = 2) /\
  (1 = 1 ->
   exists e, is_Exception e = true /\
             stderr s' = (stderr initial_state ++ [dumps (envelope e)])%list /\
             stdout s' = stdout initial_state) /\
  (1 = 2 -> calls s' = calls initial_state /\ stdout s' = stdout initial_state).
Proof.
  apply (main_exit_status no_image_world [ArgPositional "missing.png"] initial_state).
  reflexivity.
Defined.

(** ** The printed lines *)

Lemma all_printable_app (a b : string) :
  all_printable (a ++ b) = all_printable a && all_printable b.
Proof.
  induction a as [ | c a IH]; simpl; [reflexivity | ].
  rewrite IH, andb_assoc. reflexivity.
Qed.

Lemma escape_char_printable (c : ascii) : all_printable (escape_char c) = true.
Proof.
  destruct c as [b0 b1 b2 b3 b4 b5 b6 b7].
  destruct b0, b1, b2, b3, b4, b5, b6, b7; reflexivity.
Qed.

Lemma hex_digit_printable (n : N) : printable (hex_digit n) = true.
Proof.
  destruct n as [ | p]; [reflexivity | ].
  do 4 (destruct p as [p | p | ]; try reflexivity).
Qed.

Lemma hex4_printable (n : N) : all_printable (hex4 n) = true.
Proof.
  unfold hex4. cbn [all_printable]. rewrite !hex_digit_printable. reflexivity.
Qed.

Lemma escape_code_point_printable (cp : N) :
  all_printable (escape_code_point cp) = true.
Proof.
  unfold escape_code_point. destruct (cp <? 65536)%N.
  - cbn [all_printable append]. rewrite hex4_printable. reflexivity.
  - rewrite all_printable_app. cbn [all_printable append].
    rewrite !hex4_printable. reflexivity.
Qed.

Lemma start_printable (c : ascii) : all_printable (fst (fst (start c))) = true.
Proof.
  unfold start.
  repeat match goal with
         | |- context [if ?b then _ else _] => destruct b
         end;
    cbn [fst]; auto using escape_char_printable, escape_code_point_printable.
Qed.

Lemma step_printable (pending : nat) (acc : N) (c : ascii) :
  all_printable (fst (fst (step pending acc c))) = true.
Proof.
  unfold step. destruct pending as [ | k]; [apply start_printable | ].
  destruct ((128 <=? N_of_ascii c) && (N_of_ascii c <? 192))%N.
  - destruct k; cbn [fst]; auto using escape_code_point_printable.
  - pose proof (start_printable c) as H.
    destruct (start c) as [[out p] a]. cbn [fst] in *.
    rewrite all_printable_app, H.
    unfold replacement. rewrite escape_code_point_printable. reflexivity.
Qed.

Lemma escape_from_printable (s : string) :
  forall pending acc, all_printable (escape_from pending acc s) = true.
Proof.
  induction s as [ | c s IH]; intros pending acc; cbn [escape_from].
  - destruct pending; [reflexivity | apply escape_code_point_printable].
  - pose proof (step_printable pending acc c) as H.
    destruct (step pending acc c) as [[out p] a]. cbn [fst] in H.
    rewrite all_printable_app, H, IH. reflexivity.
Qed.

Lemma escape_printable (s : string) : all_printable (escape s) = true.
Proof. apply escape_from_printable. Qed.

Lemma quoted_printable (s : string) : all_printable (quoted s) = true.
Proof.
  unfold quoted. simpl. rewrite all_printable_app, escape_printable. reflexivity.
Qed.

Lemma string_of_uint_printable (d : uint) :
  all_printable (NilEmpty.string_of_uint d) = true.
Proof. induction d; simpl; auto. Qed.

Lemma string_of_int_printable (d : int) :
  all_printable (NilZero.string_of_int d) = true.
Proof.
  destruct d as [u | u]; unfold NilZero.string_of_int, NilZero.string_of_uint;
    destruct u; simpl; auto using string_of_uint_printable.
Qed.

Lemma float_repr_printable (d : decimal) : all_printable (float_repr d) = true.
Proof.
  destruct d as [i f | i f e]; unfold float_repr;
    rewrite ?all_printable_app, ?string_of_int_printable, ?string_of_uint_printable;
    reflexivity.
Qed.

(** What [json.dumps] writes is printable ASCII, whatever the strings in
    the object hold. *)
Lemma dumps_printable : forall j : JSON, all_printable (dumps j) = true.
Proof.
  fix IH 1. intros [ | s | d | fields].
  - reflexivity.
  - apply quoted_printable.
  - apply float_repr_printable.
  - cbn [dumps].
    match goal with
    | |- context [?f fields] =>
        assert (Hitems : all_printable (f fields) = true);
          [ | rewrite !all_printable_app, Hitems; reflexivity ]
    end.
    induction fields as [ | [k v] rest IHrest]; [reflexivity | ].
    destruct rest as [ | [k' v'] rest']; cbv beta iota fix in IHrest |- *.
    + rewrite !all_printable_app, quoted_printable, IH. reflexivity.
    + rewrite !all_printable_app, quoted_printable, IH, IHrest. reflexivity.
Qed.

(** X14: whatever [run_ocr] prints is one text of printable ASCII: the
    text, the model path and the message of an exception may hold quotes,
    line breaks and any character of Unicode, the printed object holds
    them escaped ([\n], [\uxxxx], surrogate pairs), so that it sits on one
    line.  A run prints at most one such text. *)
Theorem run_ocr_prints_ascii (w : World) (image_path prompt model_path : string)
    (s : State) :
  exists out err,
    stdout (snd (run_ocr w image_path prompt model_path s)) = (stdout s ++ out)%list /\
    stderr (snd (run_ocr w image_path prompt model_path s)) = (stderr s ++ err)%list /\
    (length out + length err <= 1)%nat /\
    (forall line, In line (out ++ err)%list -> all_printable line = true).
Proof.
  destruct (run_ocr_cases w image_path prompt model_path s)
    as [(result & output & s' & S & R)
       | [(e & s1 & T & E & Hstr & R)
         | [(e & s1 & T & E & R) | (e & e' & s1 & T & E & Hstr & R)]]];
    rewrite R; cbn [snd].
  - destruct (succeeds_output _ _ _ _ _ _ _ _ S) as (O & Er & _).
    exists [dumps output], []. rewrite O, Er, app_nil_r.
    repeat split; [simpl; lia | ].
    intros line [<- | []]. apply dumps_printable.
  - destruct (try_body_Raise _ _ _ _ _ _ _ T) as (new & (_ & O & Er & _) & _).
    exists [], [dumps (envelope e)]. cbn [write stdout stderr].
    rewrite O, Er, app_nil_r. repeat split; [simpl; lia | ].
    intros line [<- | []]. apply dumps_printable.
  - destruct (try_body_Raise _ _ _ _ _ _ _ T) as (new & (_ & O & Er & _) & _).
    exists [], []. rewrite O, Er, !app_nil_r. repeat split; [simpl; lia | ].
    intros line [].
  - destruct (try_body_Raise _ _ _ _ _ _ _ T) as (new & (_ & O & Er & _) & _).
    exists [], []. rewrite O, Er, !app_nil_r. repeat split; [simpl; lia | ].
    intros line [].
Qed.

(** The escapes of a text with an accent, a euro sign, a line break and a
    character beyond U+FFFF, as [json.dumps] writes them. *)
Example escape_unicode :
  escape ("caf" ++ String "195" (String "169" "")
          ++ " 5" ++ String "226" (String "130" (String "172" ""))
          ++ String "010" ""
          ++ String "240" (String "159" (String "152" (String "128" ""))))
  = "caf" ++ String backslash "u00e9 5" ++ String backslash "u20ac"
    ++ String backslash "n"
    ++ String backslash "ud83d" ++ String backslash "ude00".
Proof. reflexivity. Qed.
